(** * Guess the Country: the session logic of [guess_the_country_app.py]

    The program is a Streamlit script: every user action re-executes the
    file from top to bottom against a session store ([st.session_state])
    that survives between executions.  The embedding follows that shape:

    - [session] is the session store, one field per key the script uses;
    - [env] collects what one execution reads from outside the store: the
      widget values, the catalog [raw_data], the random draw and the
      answers of the language-model service;
    - the script's blocks are written in a small state-and-exception monad
      [M] that also records the notices shown to the player;
    - [script] is one execution of the whole file, [reachable] the states
      the store can be in after any number of executions.

    Text is a sequence of code points below 256 (the Latin-1 range of
    Unicode): one character of a Rocq string is one code point.  On that
    range [lower] and [strip] are Python's [str.lower] and [str.strip]; the
    range is closed under both.  Text with code points from 256 on is
    outside the model. *)

From Stdlib Require Import ZArith List String Ascii Bool Lia Permutation Sorted.
From Stdlib Require Import SpecFloat.
Import ListNotations.

Local Open Scope string_scope.
Local Open Scope list_scope.
Local Open Scope Z_scope.

(** ** Python values used by the script *)

Module PyStr.

(** [str.lower()] on one code point below 256: the capital letters [A]..[Z]
    (65..90) and the capital letters of Latin-1 (192..222, the multiplication
    sign 215 apart) are moved 32 up, to their small letter; every other code
    point is kept. *)
Definition lower_char (c : ascii) : ascii :=
  let n := nat_of_ascii c in
  if (((65 <=? n) && (n <=? 90))
      || ((192 <=? n) && (n <=? 222) && negb (n =? 215)))%nat
  then ascii_of_nat (n + 32) else c.

Fixpoint lower (s : string) : string :=
  match s with
  | EmptyString => EmptyString
  | String c r => String (lower_char c) (lower r)
  end.

(** The code points below 256 that [str.strip()] removes: tab, line feed,
    vertical tab, form feed, carriage return (9..13), the four separators
    28..31, space (32), next line (133) and no-break space (160). *)
Definition is_space (c : ascii) : bool :=
  let n := nat_of_ascii c in
  (((9 <=? n) && (n <=? 13)) || ((28 <=? n) && (n <=? 32))
   || (n =? 133) || (n =? 160))%nat.

Fixpoint lstrip (s : string) : string :=
  match s with
  | EmptyString => EmptyString
  | String c r => if is_space c then lstrip r else s
  end.

Fixpoint rev_append (s acc : string) : string :=
  match s with
  | EmptyString => acc
  | String c r => rev_append r (String c acc)
  end.

Definition rev (s : string) : string := rev_append s EmptyString.

Definition rstrip (s : string) : string := rev (lstrip (rev s)).

Definition strip (s : string) : string := rstrip (lstrip s).

(** [x in l] for a list of strings. *)
Definition mem (x : string) (l : list string) : bool :=
  existsb (String.eqb x) l.
Arguments mem : simpl never.

(** Truth value of a string: only the empty string is false. *)
Definition truthy (s : string) : bool :=
  match s with EmptyString => false | String _ _ => true end.

End PyStr.

(** What [json.loads] returns: [None], a truth value, an [int], a [float],
    a [str], a list, or a dict, given by its members. *)
#[warnings="-register-all"] Inductive json : Type :=
| JNull
| JBool (b : bool)
| JInt (n : Z)
| JFloat (x : spec_float)
| JStr (s : string)
| JArr (items : list json)
| JObj (members : list (string * json)).

(** [isinstance(v, str)]. *)
Definition is_str (v : json) : bool :=
  match v with JStr _ => true | _ => false end.

(** The exceptions the script can raise. *)
Inductive exn : Type :=
| IndexError
| KeyError
| TypeError
| AttributeError.

(** ** The catalog ([countries.json]) *)

Module Entry.

(** One record of [raw_data].  A key that may be missing from the JSON
    object is an [option]; [None] is the missing key. *)
Record t : Type := mk {
  name_common : option string;
  region : option string;
  population : option Z;
  capital : option (list string);
  borders : option (list string);
  landlocked : option bool;
  unMember : option bool;
  fifa : option string;
  cca2 : option string;
  languages : option (list (string * string))
}.

(** [d.get(key, default)]. *)
Definition get {A : Type} (field : option A) (default : A) : A :=
  match field with Some v => v | None => default end.

End Entry.

Inductive difficulty_t : Type := easy | medium | hard.

Definition classify_population (pop : Z) : string :=
  if pop <? 1000000 then "small"
  else if pop <? 30000000 then "medium"
  else "large".

Definition target (d : difficulty_t) : string :=
  match d with
  | easy => "large"
  | medium => "medium"
  | hard => "small"
  end.

Definition get_filtered_country_by_difficulty
    (raw_data : list Entry.t) (difficulty : difficulty_t) : list Entry.t :=
  filter (fun c =>
            (classify_population (Entry.get (Entry.population c) 0)
             =? target difficulty)%string)
         raw_data.

(** [random.choice(seq)]: the element at a position below [len(seq)];
    [IndexError] on an empty sequence.  [rnd] is the generator's draw. *)
Definition random_choice {A : Type} (rnd : nat) (seq : list A) : exn + A :=
  match seq with
  | [] => inl IndexError
  | x :: _ => inr (nth (Nat.modulo rnd (List.length seq)) seq x)
  end.

(** ** The secret country *)

Module Culture.
(** The three keys of the secret's dict that only the summary reads.  They
    come from the content generator's reply and from nowhere else: [None]
    is a key the dict lacks, and a value is whatever the reply gave. *)
Record t : Type := mk {
  food : option json;
  landmark : option json;
  festival : option json
}.
(** The three empty lists of the [except] branch. *)
Definition empty : t := mk (Some (JArr [])) (Some (JArr [])) (Some (JArr [])).

(** The key is there and holds a list of strings. *)
Definition is_string_list (field : option json) : bool :=
  match field with
  | Some (JArr items) => forallb is_str items
  | _ => false
  end.

(** The profile the prompt asks for: each of the three keys holds a list
    of strings. *)
Definition three_lists (c : t) : bool :=
  is_string_list (food c) && is_string_list (landmark c)
  && is_string_list (festival c).
End Culture.

Module Reply.
(** A reply of the content generator that parsed to a JSON object, by the
    keys the script can read afterwards: the ten keys of the dict
    [setup_new_country] builds, and the three keys of the summary.  [None]
    is a key the object lacks.  Under one of the ten keys the value is
    taken at the type the set-up gives that key; under the other three it
    is any JSON value.  Keys the script never reads are left out. *)
Record obj : Type := mkObj {
  name : option string;
  region : option string;
  population : option string;
  capital : option string;
  coastline : option bool;
  neighbors : option Z;
  un : option bool;
  language : option string;
  fifa : option string;
  cca2 : option string;
  food : option json;
  landmark : option json;
  festival : option json
}.

(** What [generate_country_info_with_ai] returns: the parsed reply, which
    is an object or any other JSON value (a string, a number, a list,
    [true], [false], [null]). *)
Inductive t : Type :=
| NotObject
| Object (o : obj).

(** [{"food": [], "landmark": [], "festival": []}]. *)
Definition fallback : obj :=
  {| name := None; region := None; population := None; capital := None;
     coastline := None; neighbors := None; un := None; language := None;
     fifa := None; cca2 := None;
     food := Some (JArr []); landmark := Some (JArr []);
     festival := Some (JArr []) |}.

(** The value a key has in [{key: own, **reply}]: the reply's when the
    reply has the key. *)
Definition over {A : Type} (reply : option A) (own : A) : A :=
  match reply with Some v => v | None => own end.

(** The reply has none of the ten keys of the set-up: spreading it into the
    dict only adds keys. *)
Definition adds_only (o : obj) : bool :=
  match name o, region o, population o, capital o, coastline o,
        neighbors o, un o, language o, fifa o, cca2 o with
  | None, None, None, None, None, None, None, None, None, None => true
  | _, _, _, _, _, _, _, _, _, _ => false
  end.

(** The part of the reply that the summary reads. *)
Definition culture (o : obj) : Culture.t :=
  Culture.mk (food o) (landmark o) (festival o).

End Reply.

Module Secret.
(** The dict stored under [st.session_state.secret]. *)
Record t : Type := mk {
  name : string;
  region : string;
  population : string;
  capital : string;
  coastline : bool;
  neighbors : Z;
  un : bool;
  language : string;
  fifa : string;
  cca2 : string;
  culture : Culture.t
}.
End Secret.

(** The three conditions of the key [secret] in the store: never assigned,
    assigned [None] (by Play Again), or holding a dict. *)
Inductive slot : Type :=
| Missing
| PyNone
| Dict (d : Secret.t).

(** ** The session store *)

Record session : Type := mkSession {
  game_started : bool;
  points : Z;
  attempts : Z;
  previous_hints : list string;
  answers : list (string * string);
  asked_questions : list string;
  leaderboard : list (string * Z);
  secret : slot;
  replay_requested : bool;
  selected_question : option string
}.

(** The store after the block "Init game state". *)
Definition init_session : session :=
  {| game_started := false; points := 100; attempts := 0;
     previous_hints := []; answers := []; asked_questions := [];
     leaderboard := []; secret := Missing;
     replay_requested := false; selected_question := None |}.

Definition set_game_started (v : bool) (s : session) : session :=
  {| game_started := v; points := points s; attempts := attempts s;
     previous_hints := previous_hints s; answers := answers s;
     asked_questions := asked_questions s; leaderboard := leaderboard s;
     secret := secret s; replay_requested := replay_requested s;
     selected_question := selected_question s |}.

Definition set_points (v : Z) (s : session) : session :=
  {| game_started := game_started s; points := v; attempts := attempts s;
     previous_hints := previous_hints s; answers := answers s;
     asked_questions := asked_questions s; leaderboard := leaderboard s;
     secret := secret s; replay_requested := replay_requested s;
     selected_question := selected_question s |}.

Definition set_attempts (v : Z) (s : session) : session :=
  {| game_started := game_started s; points := points s; attempts := v;
     previous_hints := previous_hints s; answers := answers s;
     asked_questions := asked_questions s; leaderboard := leaderboard s;
     secret := secret s; replay_requested := replay_requested s;
     selected_question := selected_question s |}.

Definition set_previous_hints (v : list string) (s : session) : session :=
  {| game_started := game_started s; points := points s;
     attempts := attempts s; previous_hints := v; answers := answers s;
     asked_questions := asked_questions s; leaderboard := leaderboard s;
     secret := secret s; replay_requested := replay_requested s;
     selected_question := selected_question s |}.

Definition set_answers (v : list (string * string)) (s : session) : session :=
  {| game_started := game_started s; points := points s;
     attempts := attempts s; previous_hints := previous_hints s;
     answers := v; asked_questions := asked_questions s;
     leaderboard := leaderboard s; secret := secret s;
     replay_requested := replay_requested s;
     selected_question := selected_question s |}.

Definition set_asked_questions (v : list string) (s : session) : session :=
  {| game_started := game_started s; points := points s;
     attempts := attempts s; previous_hints := previous_hints s;
     answers := answers s; asked_questions := v;
     leaderboard := leaderboard s; secret := secret s;
     replay_requested := replay_requested s;
     selected_question := selected_question s |}.

Definition set_leaderboard (v : list (string * Z)) (s : session) : session :=
  {| game_started := game_started s; points := points s;
     attempts := attempts s; previous_hints := previous_hints s;
     answers := answers s; asked_questions := asked_questions s;
     leaderboard := v; secret := secret s;
     replay_requested := replay_requested s;
     selected_question := selected_question s |}.

Definition set_secret (v : slot) (s : session) : session :=
  {| game_started := game_started s; points := points s;
     attempts := attempts s; previous_hints := previous_hints s;
     answers := answers s; asked_questions := asked_questions s;
     leaderboard := leaderboard s; secret := v;
     replay_requested := replay_requested s;
     selected_question := selected_question s |}.

Definition set_replay_requested (v : bool) (s : session) : session :=
  {| game_started := game_started s; points := points s;
     attempts := attempts s; previous_hints := previous_hints s;
     answers := answers s; asked_questions := asked_questions s;
     leaderboard := leaderboard s; secret := secret s;
     replay_requested := v; selected_question := selected_question s |}.

Definition set_selected_question (v : option string) (s : session) : session :=
  {| game_started := game_started s; points := points s;
     attempts := attempts s; previous_hints := previous_hints s;
     answers := answers s; asked_questions := asked_questions s;
     leaderboard := leaderboard s; secret := secret s;
     replay_requested := replay_requested s; selected_question := v |}.

(** ** What one execution reads from outside the store *)

Record env : Type := mkEnv {
  raw_data : list Entry.t;
  (** widgets *)
  difficulty : difficulty_t;
  btn_start : bool;
  question_selector : option string;
  btn_submit_question : bool;
  guess : string;
  btn_submit_guess : bool;
  player_name : string;
  btn_submit_score : bool;
  btn_play_again : bool;
  (** the draw of [random.choice] *)
  rnd : nat;
  (** the content generator: [None] is any failure of the call or of the
      parsing of its response (the [except] branches) *)
  ai_profile : string -> option Reply.t;
  ai_hint : string -> difficulty_t -> list string -> option string
}.

(** ** Notices shown to the player *)

Inductive message : Type :=
| NewCountryLoaded                     (* st.success "New country loaded!" *)
| OutOfPoints (country : string)       (* st.error "You're out of points! ..." *)
| GameOver (country : string)          (* st.error "Game Over! ..." *)
| QuestionUnavailable                  (* st.warning "This question is no longer available." *)
| AnswerBox (q a : string)
| FlagImage (code : string)
| Correct (country : string)           (* st.success "Correct! It was ..." *)
| Summary (d : Secret.t)
| WrongGuess                           (* st.error "Wrong guess." *)
| HintShown (h : string)                  (* st.info "Hint: ..." *)
| HintDuplicate                        (* st.warning "You've already seen this hint." *)
| HintUnavailable                      (* st.warning "Could not fetch hint." *)
| Status (guesses_left pts : Z).

(** ** The monad of the script *)

(** How a block can end early: an uncaught exception, [st.stop()] or
    [st.rerun()]. *)
Inductive signal : Type :=
| Raised (e : exn)
| StopScript
| RerunScript.

Inductive outcome (A : Type) : Type :=
| Done (a : A)
| Halt (g : signal).
Arguments Done {A} a.
Arguments Halt {A} g.

Definition M (A : Type) : Type := session -> outcome A * session * list message.

Definition ret {A : Type} (a : A) : M A := fun s => (Done a, s, []).

Definition bind {A B : Type} (m : M A) (k : A -> M B) : M B :=
  fun s =>
    match m s with
    | (Done a, s1, l1) =>
        match k a s1 with
        | (r, s2, l2) => (r, s2, l1 ++ l2)
        end
    | (Halt g, s1, l1) => (Halt g, s1, l1)
    end.

Notation "x <- m ;; k" := (bind m (fun x => k))
  (at level 61, m at next level, right associativity).
Notation "m ;; k" := (bind m (fun _ => k))
  (at level 61, right associativity).

Definition get : M session := fun s => (Done s, s, []).
Definition modify (f : session -> session) : M unit := fun s => (Done tt, f s, []).
Definition emit (m : message) : M unit := fun s => (Done tt, s, [m]).
Definition halt {A : Type} (g : signal) : M A := fun s => (Halt g, s, []).
Definition raise {A : Type} (e : exn) : M A := halt (Raised e).
Definition when (b : bool) (m : M unit) : M unit := if b then m else ret tt.

Definition lift {A : Type} (r : exn + A) : M A :=
  match r with inl e => raise e | inr a => ret a end.

(** The store and the notices an execution leaves behind. *)
Definition state_of {A : Type} (r : outcome A * session * list message) : session :=
  snd (fst r).
Definition log_of {A : Type} (r : outcome A * session * list message) : list message :=
  snd r.
Definition outcome_of {A : Type} (r : outcome A * session * list message) : outcome A :=
  fst (fst r).

(** ** Reading the secret out of the store *)

(** [st.session_state.secret]: the attribute must exist. *)
Definition read_secret : M (option Secret.t) :=
  s <- get ;;
  match secret s with
  | Missing => raise AttributeError
  | PyNone => ret None
  | Dict d => ret (Some d)
  end.

(** [c[key]] on what the store holds: [None] is not subscriptable. *)
Definition subscript (c : option Secret.t) : exn + Secret.t :=
  match c with
  | Some d => inr d
  | None => inl TypeError
  end.

(** [st.session_state.secret[key]]. *)
Definition secret_item {A : Type} (key : Secret.t -> A) : M A :=
  c <- read_secret ;;
  d <- lift (subscript c) ;;
  ret (key d).

(** [st.session_state.secret.get(key, default)]: [None] has no [get]. *)
Definition secret_get {A : Type} (key : Secret.t -> A) : M A :=
  c <- read_secret ;;
  match c with
  | Some d => ret (key d)
  | None => raise AttributeError
  end.

(** ** Round set-up *)

Definition generate_country_info_with_ai (e : env) (name : string) : Reply.t :=
  match ai_profile e name with
  | Some v => v
  | None => Reply.Object Reply.fallback
  end.

(** [d[key]] on a catalog record. *)
Definition item {A : Type} (field : option A) : exn + A :=
  match field with
  | Some v => inr v
  | None => inl KeyError
  end.

(** [seq[0]]. *)
Definition first_item {A : Type} (seq : list A) : exn + A :=
  match seq with
  | [] => inl IndexError
  | x :: _ => inr x
  end.

(** The dict [setup_new_country] builds from a catalog record.  The reply
    of the generator is spread last into the literal: it must be a mapping,
    and its keys replace those of the record. *)
Definition secret_of_entry (e : env) (entry : Entry.t) : exn + Secret.t :=
  match item (Entry.name_common entry) with
  | inl x => inl x
  | inr name =>
      let region := Entry.get (Entry.region entry) "Unknown" in
      let pop := Entry.get (Entry.population entry) 0 in
      match first_item (Entry.get (Entry.capital entry) ["Unknown"]) with
      | inl x => inl x
      | inr capital =>
          let neighbors := Z.of_nat (List.length (Entry.get (Entry.borders entry) [])) in
          let coast := negb (Entry.get (Entry.landlocked entry) true) in
          let un := Entry.get (Entry.unMember entry) false in
          let fifa := Entry.get (Entry.fifa entry) "Unknown" in
          let cca2 := Entry.get (Entry.cca2 entry) "XX" in
          let language :=
            match Entry.languages entry with
            | Some ((_, v) :: _) => v
            | _ => "Unknown"
            end in
          match generate_country_info_with_ai e name with
          | Reply.NotObject => inl TypeError
          | Reply.Object culture =>
              inr {| Secret.name := Reply.over (Reply.name culture) name;
                     Secret.region := Reply.over (Reply.region culture) region;
                     Secret.population :=
                       Reply.over (Reply.population culture) (classify_population pop);
                     Secret.capital := Reply.over (Reply.capital culture) capital;
                     Secret.coastline := Reply.over (Reply.coastline culture) coast;
                     Secret.neighbors := Reply.over (Reply.neighbors culture) neighbors;
                     Secret.un := Reply.over (Reply.un culture) un;
                     Secret.language := Reply.over (Reply.language culture) language;
                     Secret.fifa := Reply.over (Reply.fifa culture) fifa;
                     Secret.cca2 := Reply.over (Reply.cca2 culture) cca2;
                     Secret.culture := Reply.culture culture |}
          end
      end
  end.

Definition setup_new_country (e : env) : M unit :=
  let filtered := get_filtered_country_by_difficulty (raw_data e) (difficulty e) in
  entry <- lift (random_choice (rnd e) filtered) ;;
  d <- lift (secret_of_entry e entry) ;;
  modify (set_secret (Dict d)).

(** The block under [if st.button("Start Game") or replay_requested]. *)
Definition start_game (e : env) : M unit :=
  modify (set_replay_requested false) ;;
  setup_new_country e ;;
  modify (set_answers []) ;;
  modify (set_asked_questions []) ;;
  modify (set_previous_hints []) ;;
  modify (set_game_started true) ;;
  emit NewCountryLoaded.

(** The block under [if st.session_state.game_started]. *)
Definition out_of_points_guard : M unit :=
  s <- get ;;
  when (game_started s)
    (when (points s <=? 0)
       (name <- secret_item Secret.name ;;
        emit (OutOfPoints name) ;;
        modify (set_game_started false) ;;
        halt StopScript)).

(** ** Questions *)

Definition yes_no (b : bool) : string := if b then "Yes" else "No".

Definition q_map : list (string * (option Secret.t -> exn + string)) :=
  [ ("Is it in Europe?",
      fun c => match subscript c with
               | inl x => inl x
               | inr d =>
                   inr (if negb (PyStr.lower (Secret.region d) =? "europe")%string
                        then String.append "No, it's in " (Secret.region d)
                        else "Yes, it's in Europe")
               end);
    ("Is its population small, medium, or large?",
      fun c => match subscript c with
               | inl x => inl x
               | inr d => inr (Secret.population d)
               end);
    ("Does it have a coastline?",
      fun c => match subscript c with
               | inl x => inl x
               | inr d => inr (yes_no (Secret.coastline d))
               end);
    ("Does it have more than 3 neighboring countries?",
      fun c => match subscript c with
               | inl x => inl x
               | inr d => inr (yes_no (Secret.neighbors d >? 3))
               end);
    ("Is it a UN member?",
      fun c => match subscript c with
               | inl x => inl x
               | inr d => inr (yes_no (Secret.un d))
               end);
    ("What is the country's capital city?",
      fun c => match subscript c with
               | inl x => inl x
               | inr d => inr (Secret.capital d)
               end);
    ("What is the country's FIFA code?",
      fun c => match subscript c with
               | inl x => inl x
               | inr d => inr (Secret.fifa d)
               end);
    ("What is the flag?", fun _ => inr "Here is the flag:") ].

(** [q_map[key]]. *)
Fixpoint lookup {A : Type} (key : string) (d : list (string * A)) : exn + A :=
  match d with
  | [] => inl KeyError
  | (k, v) :: r => if (k =? key)%string then inr v else lookup key r
  end.

(** [[q for q in q_map if q not in asked_questions]]. *)
Definition available (asked : list string) : list string :=
  filter (fun q => negb (PyStr.mem q asked)) (map fst q_map).

(** [selected in available]; the select box yields [None] when it has no
    option to offer. *)
Definition is_available (selected : option string) (avail : list string) : bool :=
  match selected with
  | Some q => PyStr.mem q avail
  | None => false
  end.

(** The first statements under [if st.button("Submit Question")]: the
    question itself. *)
Definition ask_question (avail : list string) : M unit :=
  s <- get ;;
  match selected_question s with
  | Some q =>
      if PyStr.mem q avail then
        f <- lift (lookup q q_map) ;;
        c <- read_secret ;;
        answer <- lift (f c) ;;
        modify (fun s => set_answers (answers s ++ [(q, answer)]) s) ;;
        modify (fun s => set_asked_questions (asked_questions s ++ [q]) s) ;;
        modify (fun s => set_points (points s - 2) s)
      else emit QuestionUnavailable
  | None => emit QuestionUnavailable
  end.

(** The loop that displays the answers given so far. *)
Fixpoint show_answers (l : list (string * string)) : M unit :=
  match l with
  | [] => ret tt
  | (q, a) :: r =>
      emit (AnswerBox q a) ;;
      (if (q =? "What is the flag?")%string
       then (code <- secret_get Secret.cca2 ;; emit (FlagImage code))
       else ret tt) ;;
      show_answers r
  end.

(** ** Guesses *)

(** The [else] branch of [if attempts >= 5]: one request to the generator;
    a failure of the call or of the parsing is caught. *)
Definition request_hint (e : env) : M unit :=
  country <- secret_item Secret.name ;;
  s <- get ;;
  let used_hints := previous_hints s in
  match ai_hint e country (difficulty e) used_hints with
  | Some hint =>
      s <- get ;;
      if negb (PyStr.mem hint (previous_hints s)) then
        modify (fun s => set_previous_hints (previous_hints s ++ [hint]) s) ;;
        emit (HintShown hint)
      else emit HintDuplicate
  | None => emit HintUnavailable
  end.

(** The [else] branch of the comparison: a wrong guess. *)
Definition wrong_guess (e : env) : M unit :=
  emit WrongGuess ;;
  modify (fun s => set_attempts (attempts s + 1) s) ;;
  modify (fun s => set_points (points s - 20) s) ;;
  s <- get ;;
  when (points s <=? 0)
    (name <- secret_item Secret.name ;;
     emit (OutOfPoints name) ;;
     modify (set_game_started false)) ;;
  s <- get ;;
  if attempts s >=? 5 then
    name <- secret_item Secret.name ;;
    emit (GameOver name) ;;
    modify (set_game_started false)
  else request_hint e.

(** [', '.join(v)] as far as it can fail: a string is joined character by
    character, a dict by its keys, a list when all its items are strings;
    anything else raises [TypeError]. *)
Definition join_error (v : json) : option exn :=
  match v with
  | JStr _ => None
  | JObj _ => None
  | JArr items => if forallb is_str items then None else Some TypeError
  | _ => Some TypeError
  end.

(** [', '.join(c[key])] for a key of the summary: [KeyError] when the dict
    lacks it. *)
Definition joined (field : option json) : exn + unit :=
  match field with
  | None => inl KeyError
  | Some v => match join_error v with
              | Some x => inl x
              | None => inr tt
              end
  end.

(** The first exception the summary of the dict [d] raises, if any. *)
Definition summary_error (d : Secret.t) : option exn :=
  match joined (Culture.food (Secret.culture d)) with
  | inl x => Some x
  | inr _ =>
      match joined (Culture.landmark (Secret.culture d)) with
      | inl x => Some x
      | inr _ =>
          match joined (Culture.festival (Secret.culture d)) with
          | inl x => Some x
          | inr _ => None
          end
      end
  end.

(** The first branch of the comparison: a correct guess.  The summary is
    built after [game_started] is cleared. *)
Definition correct_guess : M unit :=
  name <- secret_item Secret.name ;;
  emit (Correct name) ;;
  modify (set_game_started false) ;;
  c <- secret_item (fun d => d) ;;
  lift (joined (Culture.food (Secret.culture c))) ;;
  lift (joined (Culture.landmark (Secret.culture c))) ;;
  lift (joined (Culture.festival (Secret.culture c))) ;;
  emit (Summary c).

(** The block under [if st.button("Submit Guess")]. *)
Definition submit_guess (e : env) : M unit :=
  name <- secret_item Secret.name ;;
  if (PyStr.lower (PyStr.strip (guess e)) =? PyStr.lower name)%string
  then correct_guess
  else wrong_guess e.

(** The whole block under [if st.button("Submit Question")]: the guess
    input and its button are nested in it. *)
Definition submit_question (e : env) (avail : list string) : M unit :=
  ask_question avail ;;
  s <- get ;;
  show_answers (answers s) ;;
  when (btn_submit_guess e) (submit_guess e) ;;
  s <- get ;;
  emit (Status (5 - attempts s) (points s)).

(** ** Leaderboard *)

(** A stable sort by decreasing score, as
    [sorted(l, key=lambda x: x[1], reverse=True)]: entries of equal score
    keep the order they have in [l]. *)
Fixpoint insert_desc (x : string * Z) (l : list (string * Z)) : list (string * Z) :=
  match l with
  | [] => [x]
  | y :: r => if snd y <=? snd x then x :: l else y :: insert_desc x r
  end.

Definition sorted_desc (l : list (string * Z)) : list (string * Z) :=
  fold_right insert_desc [] l.

(** [max(s[1] for s in existing)] on a list with first element [x]. *)
Definition max_score (x : string * Z) (r : list (string * Z)) : Z :=
  fold_left Z.max (map snd r) (snd x).

(** The block under [if st.button("Submit Score") and player]. *)
Definition submit_score (player : string) : M unit :=
  s <- get ;;
  let current_score := points s in
  let existing := filter (fun e => (fst e =? player)%string) (leaderboard s) in
  match existing with
  | x :: r =>
      let best_prev := max_score x r in
      when (current_score >? best_prev)
        (modify (fun s => set_leaderboard
                   (filter (fun e => negb (fst e =? player)%string) (leaderboard s)) s) ;;
         modify (fun s => set_leaderboard
                   (leaderboard s ++ [(player, current_score)]) s))
  | [] =>
      modify (fun s => set_leaderboard (leaderboard s ++ [(player, current_score)]) s)
  end ;;
  modify (fun s => set_leaderboard (firstn 5 (sorted_desc (leaderboard s))) s).

(** ["secret" in st.session_state]. *)
Definition has_secret (s : session) : bool :=
  match secret s with
  | Missing => false
  | _ => true
  end.

(** The block "Leaderboard". *)
Definition leaderboard_block (e : env) : M unit :=
  s <- get ;;
  when (negb (game_started s) && has_secret s)
    (when (btn_submit_score e && PyStr.truthy (player_name e))
       (submit_score (player_name e))).

(** ** Replay *)

(** The test of the comment "Reset only if game was lost". *)
Definition lost (s : session) : bool :=
  (points s <=? 0) || (attempts s >=? 5).

(** The block under [if st.button("Play Again")]. *)
Definition play_again : M unit :=
  s <- get ;;
  when (lost s)
    (modify (set_points 100) ;;
     modify (set_attempts 0)) ;;
  modify (set_secret PyNone) ;;
  modify (set_replay_requested true) ;;
  modify (set_game_started false) ;;
  halt RerunScript.

(** ** One execution of the script *)

(** The blocks in the order of the file.  What only renders (style sheets,
    the instructions, the board at the end) is left out, as is the load of
    the catalog, which [env] provides. *)
Definition script (e : env) : M unit :=
  s <- get ;;
  when (btn_start e || replay_requested s) (start_game e) ;;
  out_of_points_guard ;;
  s <- get ;;
  let avail := available (asked_questions s) in
  modify (set_selected_question (question_selector e)) ;;
  when (btn_submit_question e) (submit_question e avail) ;;
  leaderboard_block e ;;
  when (btn_play_again e) play_again.

(** The states of the store: the initial one, and the one any execution
    leaves behind, however it ends. *)
Inductive reachable : session -> Prop :=
| reach_init : reachable init_session
| reach_run (e : env) (s : session) :
    reachable s -> reachable (state_of (script e s)).

(** The four states of a round, read off the store. *)
Inductive round_state : Type := NOT_STARTED | IN_PROGRESS | WON | LOST.

Definition round_of (s : session) : round_state :=
  if game_started s then IN_PROGRESS
  else if lost s then LOST
  else match secret s with
       | Dict _ => WON
       | _ => NOT_STARTED
       end.

(** The order of the leaderboard: no entry is followed by a better one. *)
Definition score_ge (a b : string * Z) : Prop := snd b <= snd a.

(** The list [submit_score] sorts and truncates: the board with the
    player's entry added, replaced or left alone. *)
Definition updated_board (player : string) (score : Z) (lb : list (string * Z))
    : list (string * Z) :=
  match filter (fun e => (fst e =? player)%string) lb with
  | x :: r =>
      if score >? max_score x r
      then filter (fun e => negb (fst e =? player)%string) lb ++ [(player, score)]
      else lb
  | [] => lb ++ [(player, score)]
  end.

(** ** Invariants of the store *)

(** A block keeps [P] when the store satisfies it however the block ends. *)
Definition preserves (P : session -> Prop) {A : Type} (m : M A) : Prop :=
  forall s, P s -> P (state_of (m s)).

(** A block that only reads the store. *)
Definition reads_only {A : Type} (m : M A) : Prop :=
  forall s, state_of (m s) = s.

(** A board in order: by decreasing score, at most five entries, one entry
    per player. *)
Definition board_ok (lb : list (string * Z)) : Prop :=
  StronglySorted score_ge lb
  /\ (List.length lb <= 5)%nat
  /\ NoDup (map fst lb).

(** Hints are pairwise different; the questions of the answers given are
    the questions asked, in order; the leaderboard is in order. *)
Definition inv (s : session) : Prop :=
  NoDup (previous_hints s)
  /\ map fst (answers s) = asked_questions s
  /\ board_ok (leaderboard s).

(** The answer the question engine gives to [q] about the dict [d]. *)
Definition answer_to (q : string) (d : Secret.t) : option string :=
  match lookup q q_map with
  | inr f => match f (Some d) with
             | inr a => Some a
             | inl _ => None
             end
  | inl _ => None
  end.

(** An execution in which the player picks the question [q] and presses
    Submit Question, and no other button. *)
Definition only_question (e : env) (q : string) : Prop :=
  btn_start e = false
  /\ btn_submit_question e = true
  /\ btn_submit_guess e = false
  /\ btn_play_again e = false
  /\ question_selector e = Some q.

(** An execution in which Play Again is pressed, and none of Start Game,
    Submit Question and Submit Score. *)
Definition only_play_again (e : env) : Prop :=
  btn_start e = false
  /\ btn_submit_question e = false
  /\ btn_submit_score e = false
  /\ btn_play_again e = true.

(** An execution in which no button is pressed, as the one [st.rerun()]
    starts. *)
Definition no_button (e : env) : Prop :=
  btn_start e = false
  /\ btn_submit_question e = false
  /\ btn_submit_score e = false
  /\ btn_play_again e = false.

(** The part of the store a rejected question leaves alone. *)
Definition kept (p : Z) (asked : list string) (given : list (string * string))
    (s : session) : Prop :=
  points s = p /\ asked_questions s = asked /\ answers s = given.

(** The notices that close a request to the hint generator: each request
    shows exactly one of them. *)
Definition is_hint_notice (m : message) : bool :=
  match m with
  | HintShown _ | HintDuplicate | HintUnavailable => true
  | _ => false
  end.

(** How many hints an execution has requested, read off its notices. *)
Definition hint_requests (log : list message) : nat :=
  List.length (filter is_hint_notice log).

(** The store after a sequence of executions. *)
Definition run_all (es : list env) (s : session) : session :=
  fold_left (fun s e => state_of (script e s)) es s.

(** ** Sample data *)

Module Sample.

Definition france : Entry.t :=
  {| Entry.name_common := Some "France"; Entry.region := Some "Europe";
     Entry.population := Some 67391582; Entry.capital := Some ["Paris"];
     Entry.borders :=
       Some ["AND"; "BEL"; "DEU"; "ITA"; "LUX"; "MCO"; "ESP"; "CHE"];
     Entry.landlocked := Some false; Entry.unMember := Some true;
     Entry.fifa := Some "FRA"; Entry.cca2 := Some "FR";
     Entry.languages := Some [("fra", "French")] |}.

Definition chile : Entry.t :=
  {| Entry.name_common := Some "Chile"; Entry.region := Some "Americas";
     Entry.population := Some 19116209; Entry.capital := Some ["Santiago"];
     Entry.borders := Some ["ARG"; "BOL"; "PER"];
     Entry.landlocked := Some false; Entry.unMember := Some true;
     Entry.fifa := Some "CHI"; Entry.cca2 := Some "CL";
     Entry.languages := Some [("spa", "Spanish")] |}.

Definition iceland : Entry.t :=
  {| Entry.name_common := Some "Iceland"; Entry.region := Some "Europe";
     Entry.population := Some 366425; Entry.capital := Some ["Reykjavik"];
     Entry.borders := Some [];
     Entry.landlocked := Some false; Entry.unMember := Some true;
     Entry.fifa := Some "ISL"; Entry.cca2 := Some "IS";
     Entry.languages := Some [("isl", "Icelandic")] |}.

Definition catalog : list Entry.t := [france; chile; iceland].

(** An execution with no button pressed; the generator answers every
    request for a hint with the same clue and fails on cultural profiles. *)
Definition idle : env :=
  {| raw_data := catalog; difficulty := easy; btn_start := false;
     question_selector := Some "Is it in Europe?";
     btn_submit_question := false; guess := ""; btn_submit_guess := false;
     player_name := ""; btn_submit_score := false; btn_play_again := false;
     rnd := 0; ai_profile := fun _ => None;
     ai_hint := fun _ _ _ => Some "Its bakers are known for the baguette" |}.

Definition press_start (cat : list Entry.t) : env :=
  {| raw_data := cat; difficulty := easy; btn_start := true;
     question_selector := Some "Is it in Europe?";
     btn_submit_question := false; guess := ""; btn_submit_guess := false;
     player_name := ""; btn_submit_score := false; btn_play_again := false;
     rnd := 0; ai_profile := fun _ => None;
     ai_hint := fun _ _ _ => Some "Its bakers are known for the baguette" |}.

Definition press_question (q : string) : env :=
  {| raw_data := catalog; difficulty := easy; btn_start := false;
     question_selector := Some q;
     btn_submit_question := true; guess := ""; btn_submit_guess := false;
     player_name := ""; btn_submit_score := false; btn_play_again := false;
     rnd := 0; ai_profile := fun _ => None;
     ai_hint := fun _ _ _ => Some "Its bakers are known for the baguette" |}.

(** The guess [g] is typed in; [hint] is what the generator answers. *)
Definition with_guess (g : string) (hint : option string) : env :=
  {| raw_data := catalog; difficulty := easy; btn_start := false;
     question_selector := None;
     btn_submit_question := true; guess := g; btn_submit_guess := true;
     player_name := ""; btn_submit_score := false; btn_play_again := false;
     rnd := 0; ai_profile := fun _ => None;
     ai_hint := fun _ _ _ => hint |}.

Definition press_score (player : string) : env :=
  {| raw_data := catalog; difficulty := easy; btn_start := false;
     question_selector := None;
     btn_submit_question := false; guess := ""; btn_submit_guess := false;
     player_name := player; btn_submit_score := true; btn_play_again := false;
     rnd := 0; ai_profile := fun _ => None;
     ai_hint := fun _ _ _ => None |}.

Definition france_secret : Secret.t :=
  {| Secret.name := "France"; Secret.region := "Europe";
     Secret.population := "large"; Secret.capital := "Paris";
     Secret.coastline := true; Secret.neighbors := 8; Secret.un := true;
     Secret.language := "French"; Secret.fifa := "FRA"; Secret.cca2 := "FR";
     Secret.culture := Culture.empty |}.

(** A round on France in progress, with [pts] points, [n] wrong guesses
    and the hints [hints] shown so far. *)
Definition playing (pts n : Z) (hints : list string) : session :=
  {| game_started := true; points := pts; attempts := n;
     previous_hints := hints; answers := []; asked_questions := [];
     leaderboard := []; secret := Dict france_secret;
     replay_requested := false; selected_question := None |}.

(** A round on France that is over, with the board [lb]. *)
Definition finished (pts n : Z) (lb : list (string * Z)) : session :=
  {| game_started := false; points := pts; attempts := n;
     previous_hints := []; answers := []; asked_questions := [];
     leaderboard := lb; secret := Dict france_secret;
     replay_requested := false; selected_question := None |}.

Definition press_play_again : env :=
  {| raw_data := catalog; difficulty := easy; btn_start := false;
     question_selector := None;
     btn_submit_question := false; guess := ""; btn_submit_guess := false;
     player_name := ""; btn_submit_score := false; btn_play_again := true;
     rnd := 0; ai_profile := fun _ => None;
     ai_hint := fun _ _ _ => None |}.

(** A game of two rounds on France.  First round: the eight questions,
    three wrong guesses (each answered by a failure of the hint generator),
    then the right guess.  Play Again, the execution it triggers, and two
    questions of the second round. *)
Definition two_rounds : list env :=
  [ press_start catalog;
    press_question "Is it in Europe?";
    press_question "Is its population small, medium, or large?";
    press_question "Does it have a coastline?";
    press_question "Does it have more than 3 neighboring countries?";
    press_question "Is it a UN member?";
    press_question "What is the country's capital city?";
    press_question "What is the country's FIFA code?";
    press_question "What is the flag?";
    with_guess "Spain" None;
    with_guess "Italy" None;
    with_guess "Chile" None;
    with_guess "France" None;
    press_play_again;
    idle;
    press_question "Is it in Europe?";
    press_question "Does it have a coastline?" ].

(** The store after that game: a round in progress with 20 points left
    and 3 wrong guesses counted. *)
Definition low_on_points : session := run_all two_rounds init_session.

(** The store after a round won on the third guess and Play Again. *)
Definition replayed : session :=
  run_all [ press_start catalog; with_guess "Spain" None;
            with_guess "Italy" None; with_guess "France" None;
            press_play_again ] init_session.

(** The store after a round won on the first guess. *)
Definition won : session :=
  run_all [ press_start catalog; with_guess "France" None ] init_session.

(** The store after Start Game on the catalog and one wrong guess. *)
Definition after_wrong_guess : session :=
  state_of (script (with_guess "Spain" (Some "Its bakers are known for the baguette"))
              (state_of (script (press_start catalog) init_session))).

(** The store after Start Game on the catalog, the right guess, and the
    score submitted under the name Ada. *)
Definition after_score : session :=
  state_of (script (press_score "Ada")
    (state_of (script (with_guess "France" None)
       (state_of (script (press_start catalog) init_session))))).

(** The store after Start Game on the catalog and two questions. *)
Definition after_two_questions : session :=
  state_of (script (press_question "Does it have a coastline?")
    (state_of (script (press_question "Is it in Europe?")
       (state_of (script (press_start catalog) init_session))))).

End Sample.

(** ** Notions for the whole script *)

(** A block run from a store satisfying [I] either completes in a store
    satisfying [I], or halts with a signal and in a store related by [H]. *)
Definition ends_well (I : session -> Prop) (H : signal -> session -> Prop)
    {A : Type} (m : M A) : Prop :=
  forall s, I s ->
    match outcome_of (m s) with
    | Done _ => I (state_of (m s))
    | Halt g => H g (state_of (m s))
    end.

(** A block that halts by an exception only. *)
Definition only_raises {A : Type} (m : M A) : Prop :=
  forall s g, outcome_of (m s) = Halt g -> exists x, g = Raised x.

(** Halting is allowed, by [st.stop()] or [st.rerun()] only. *)
Definition not_raised (g : signal) (s : session) : Prop :=
  forall x, g <> Raised x.

(** No replay is pending. *)
Definition no_replay (s : session) : Prop := replay_requested s = false.

(** The signal is [st.rerun()] exactly when a replay is pending. *)
Definition rerun_iff_replay (g : signal) (s : session) : Prop :=
  g = RerunScript <-> replay_requested s = true.

(** The store holds the dict of a secret country. *)
Definition holds_secret (s : session) : Prop :=
  exists d, secret s = Dict d.

(** The store holds the dict of a secret country with its three lists of
    foods, landmarks and festivals. *)
Definition holds_profile (s : session) : Prop :=
  exists d, secret s = Dict d /\ Culture.three_lists (Secret.culture d) = true.

(** The keys of [q_map], in the order of the file. *)
Definition questions : list string := map fst q_map.

(** What every execution keeps besides [inv]: points never exceed the
    100 of the start, the count of wrong guesses is not negative, the asked
    questions are pairwise different questions of the catalog, and a game
    that is started has a secret. *)
Definition bounds (s : session) : Prop :=
  points s <= 100
  /\ 0 <= attempts s
  /\ NoDup (asked_questions s)
  /\ incl (asked_questions s) questions
  /\ (game_started s = true -> holds_secret s).

(** ** More sample data *)

Module Cases.

(** Submit Guess is pressed with the guess [g], Submit Question is not. *)
Definition guess_only (g : string) : env :=
  {| raw_data := Sample.catalog; difficulty := easy; btn_start := false;
     question_selector := None;
     btn_submit_question := false; guess := g; btn_submit_guess := true;
     player_name := ""; btn_submit_score := false; btn_play_again := false;
     rnd := 0; ai_profile := fun _ => None;
     ai_hint := fun _ _ _ => None |}.

(** A round on France in progress with no points left. *)
Definition out_of_points : session := Sample.playing 0 2 [].

(** A round lost on points and not replayed. *)
Definition lost_on_points : session := Sample.finished (-4) 3 [].

(** A finished round with 30 points and a board of five better scores. *)
Definition full_board : session :=
  Sample.finished 30 1
    [("Ada", 90); ("Bob", 70); ("Cy", 70); ("Dan", 50); ("Flo", 40)].

(** A secret whose name starts with a blank. *)
Definition padded_secret : Secret.t :=
  {| Secret.name := " Chad"; Secret.region := "Africa";
     Secret.population := "medium"; Secret.capital := "N'Djamena";
     Secret.coastline := false; Secret.neighbors := 6; Secret.un := true;
     Secret.language := "Arabic"; Secret.fifa := "CHA"; Secret.cca2 := "TD";
     Secret.culture := Culture.empty |}.

(** Submit Question is pressed with the question [q] selected, and Submit
    Guess with the guess [g]; the hint generator fails. *)
Definition question_and_guess (q g : string) : env :=
  {| raw_data := Sample.catalog; difficulty := easy; btn_start := false;
     question_selector := Some q;
     btn_submit_question := true; guess := g; btn_submit_guess := true;
     player_name := ""; btn_submit_score := false; btn_play_again := false;
     rnd := 0; ai_profile := fun _ => None;
     ai_hint := fun _ _ _ => None |}.

(** Start Game, then the eight questions, one execution each. *)
Definition round_of_questions : list env :=
  Sample.press_start Sample.catalog :: map Sample.press_question questions.

(** Six such rounds cost 96 points; a seventh round start and one question
    leave a round in progress with 2 points. *)
Definition last_two_points : session :=
  run_all (List.concat (repeat round_of_questions 6)
           ++ [ Sample.press_start Sample.catalog;
                Sample.press_question "Is it in Europe?" ])
    init_session.

(** One more question: the round is still flagged as started, with no
    points left. *)
Definition no_points_left : session :=
  state_of (script (Sample.press_question "Does it have a coastline?")
              last_two_points).

(** The name of La Reunion as the catalog spells it: the second letter is
    the code point 233, e with an acute accent. *)
Definition reunion : string :=
  String "R"%char (String (ascii_of_nat 233) "union").

(** The same name in capitals (201 is the capital of 233), after two
    spaces and before a no-break space (160). *)
Definition shouted_reunion : string :=
  String " "%char (String " "%char (String "R"%char (String (ascii_of_nat 201)
    (String.append "UNION" (String (ascii_of_nat 160) EmptyString))))).

Definition reunion_secret : Secret.t :=
  {| Secret.name := reunion; Secret.region := "Africa";
     Secret.population := "small"; Secret.capital := "Saint-Denis";
     Secret.coastline := true; Secret.neighbors := 0; Secret.un := false;
     Secret.language := "French"; Secret.fifa := "Unknown"; Secret.cca2 := "RE";
     Secret.culture :=
       {| Culture.food :=
            Some (JArr [JStr "Rougail saucisse"; JStr "Cari poulet"; JStr "Bonbon piment"]);
          Culture.landmark :=
            Some (JArr [JStr "Piton de la Fournaise"; JStr "Cirque de Mafate"; JStr "Cilaos"]);
          Culture.festival :=
            Some (JArr [JStr "Dipavali"; JStr "Sakifo"; JStr "Grand Raid"]) |} |}.

(** A round on La Reunion in progress, with [pts] points and [n] wrong
    guesses. *)
Definition round_on_reunion (pts n : Z) : session :=
  set_secret (Dict reunion_secret) (Sample.playing pts n []).

(** The reply [{}]: an object with no key at all. *)
Definition empty_object : Reply.obj :=
  {| Reply.name := None; Reply.region := None; Reply.population := None;
     Reply.capital := None; Reply.coastline := None; Reply.neighbors := None;
     Reply.un := None; Reply.language := None; Reply.fifa := None;
     Reply.cca2 := None;
     Reply.food := None; Reply.landmark := None; Reply.festival := None |}.

(** A reply of the shape the prompt asks for. *)
Definition french_profile : Reply.obj :=
  {| Reply.name := None; Reply.region := None; Reply.population := None;
     Reply.capital := None; Reply.coastline := None; Reply.neighbors := None;
     Reply.un := None; Reply.language := None; Reply.fifa := None;
     Reply.cca2 := None;
     Reply.food := Some (JArr [JStr "Baguette"; JStr "Croissant"; JStr "Ratatouille"]);
     Reply.landmark :=
       Some (JArr [JStr "Eiffel Tower"; JStr "Mont Saint-Michel"; JStr "Louvre"]);
     Reply.festival :=
       Some (JArr [JStr "Bastille Day"; JStr "Cannes Film Festival";
                   JStr "Fete de la Musique"]) |}.

(** The dict of France with that reply spread into it. *)
Definition france_with_profile : Secret.t :=
  {| Secret.name := "France"; Secret.region := "Europe";
     Secret.population := "large"; Secret.capital := "Paris";
     Secret.coastline := true; Secret.neighbors := 8; Secret.un := true;
     Secret.language := "French"; Secret.fifa := "FRA"; Secret.cca2 := "FR";
     Secret.culture := Reply.culture french_profile |}.

(** Start Game is pressed on the catalog [Sample.catalog]; the content
    generator answers [reply] whatever the country. *)
Definition start_with_reply (reply : Reply.t) : env :=
  {| raw_data := Sample.catalog; difficulty := easy; btn_start := true;
     question_selector := Some "Is it in Europe?";
     btn_submit_question := false; guess := ""; btn_submit_guess := false;
     player_name := ""; btn_submit_score := false; btn_play_again := false;
     rnd := 0; ai_profile := fun _ => Some reply;
     ai_hint := fun _ _ _ => None |}.

End Cases.

(** * Properties *)

(** ** The stable sort of the leaderboard *)

Section SortFacts.

Lemma insert_desc_perm (x : string * Z) (l : list (string * Z)) :
  Permutation (x :: l) (insert_desc x l).
Proof.
  induction l as [|y r IH]; simpl.
  - apply Permutation_refl.
  - destruct (snd y <=? snd x).
    + apply Permutation_refl.
    + eapply perm_trans; [apply perm_swap|].
      now apply perm_skip.
Qed.

Lemma sorted_desc_perm (l : list (string * Z)) :
  Permutation l (sorted_desc l).
Proof.
  induction l as [|x l IH]; simpl.
  - constructor.
  - eapply perm_trans; [apply perm_skip, IH|].
    apply insert_desc_perm.
Qed.

Lemma insert_desc_sorted (x : string * Z) (l : list (string * Z)) :
  StronglySorted score_ge l -> StronglySorted score_ge (insert_desc x l).
Proof.
  induction 1 as [|y r Hr IH Hy]; simpl.
  - repeat constructor.
  - destruct (Z.leb_spec (snd y) (snd x)) as [Hle|Hlt].
    + constructor; [now constructor|].
      constructor; [exact Hle|].
      eapply Forall_impl; [|exact Hy].
      unfold score_ge; intros; lia.
    + constructor; [exact IH|].
      eapply Permutation_Forall; [apply insert_desc_perm|].
      constructor; [unfold score_ge; lia | exact Hy].
Qed.

Lemma sorted_desc_sorted (l : list (string * Z)) :
  StronglySorted score_ge (sorted_desc l).
Proof.
  induction l as [|x l IH]; simpl.
  - constructor.
  - now apply insert_desc_sorted.
Qed.

(** Stability: the entries of any one score keep their order. *)
Lemma insert_desc_stable (v : Z) (x : string * Z) (l : list (string * Z)) :
  filter (fun e => snd e =? v) (insert_desc x l)
  = filter (fun e => snd e =? v) (x :: l).
Proof.
  induction l as [|y r IH]; [reflexivity|].
  cbn [insert_desc].
  destruct (Z.leb_spec (snd y) (snd x)) as [Hle|Hlt]; [reflexivity|].
  cbn [filter] in *. rewrite IH.
  destruct (Z.eqb_spec (snd y) v) as [Hy|Hy];
    destruct (Z.eqb_spec (snd x) v) as [Hx|Hx]; try reflexivity.
  lia.
Qed.

Lemma sorted_desc_stable (v : Z) (l : list (string * Z)) :
  filter (fun e => snd e =? v) (sorted_desc l)
  = filter (fun e => snd e =? v) l.
Proof.
  induction l as [|x l IH]; [reflexivity|].
  cbn [sorted_desc fold_right]. rewrite insert_desc_stable.
  cbn [filter]. fold (sorted_desc l). now rewrite IH.
Qed.

(** A list already in order is left as it is. *)
Lemma sorted_desc_fixpoint (l : list (string * Z)) :
  StronglySorted score_ge l -> sorted_desc l = l.
Proof.
  induction 1 as [|x r Hr IH Hx]; [reflexivity|].
  cbn [sorted_desc fold_right]. fold (sorted_desc r). rewrite IH.
  destruct r as [|y r']; [reflexivity|].
  cbn [insert_desc].
  inversion Hx as [|? ? Hxy _]; subst. unfold score_ge in Hxy.
  destruct (Z.leb_spec (snd y) (snd x)); [reflexivity|lia].
Qed.

Lemma in_firstn {A : Type} (n : nat) (l : list A) (y : A) :
  In y (firstn n l) -> In y l.
Proof.
  revert l; induction n as [|n IH]; intros [|x l]; simpl; try tauto.
  intros [H|H]; [now left | right; now apply IH].
Qed.

Lemma firstn_sorted (n : nat) (l : list (string * Z)) :
  StronglySorted score_ge l -> StronglySorted score_ge (firstn n l).
Proof.
  intros H. revert n.
  induction H as [|x r Hr IH Hx]; intros [|n]; simpl; try constructor.
  - apply IH.
  - rewrite Forall_forall in *. intros y Hy.
    apply Hx. eapply in_firstn. exact Hy.
Qed.

End SortFacts.

(** ** Reasoning about blocks of the script *)

(** Running a block that starts with a primitive. *)
Lemma run_bind {A B : Type} (m : M A) (k : A -> M B) (s : session) :
  bind m k s
  = match m s with
    | (Done a, s1, l1) =>
        (outcome_of (k a s1), state_of (k a s1), l1 ++ log_of (k a s1))
    | (Halt g, s1, l1) => (Halt g, s1, l1)
    end.
Proof.
  unfold bind, outcome_of, state_of, log_of.
  destruct (m s) as [[[a|g] s1] l1]; [|reflexivity].
  now destruct (k a s1) as [[r s2] l2].
Qed.

Lemma state_of_bind {A B : Type} (m : M A) (k : A -> M B) (s : session) :
  state_of (bind m k s)
  = match outcome_of (m s) with
    | Done a => state_of (k a (state_of (m s)))
    | Halt _ => state_of (m s)
    end.
Proof.
  rewrite run_bind. unfold outcome_of, state_of.
  now destruct (m s) as [[[a|g] s1] l1].
Qed.

(** Stepping through a block whose first part is known. *)
Lemma bind_get_eq {B : Type} (k : session -> M B) (s : session) :
  bind get k s = k s s.
Proof.
  unfold bind, get. now destruct (k s s) as [[r s'] l].
Qed.

Lemma bind_halt {A B : Type} (m : M A) (k : A -> M B) (s s1 : session)
    (g : signal) (l : list message) :
  m s = (Halt g, s1, l) -> bind m k s = (Halt g, s1, l).
Proof. intros Hm. unfold bind. now rewrite Hm. Qed.

Lemma bind_done {A B : Type} (m : M A) (k : A -> M B) (s s1 s2 : session)
    (a : A) (r : outcome B) (l1 l2 : list message) :
  m s = (Done a, s1, l1) -> k a s1 = (r, s2, l2) ->
  bind m k s = (r, s2, l1 ++ l2).
Proof. intros Hm Hk. unfold bind. now rewrite Hm, Hk. Qed.

Section Preservation.

Variable P : session -> Prop.

Lemma reads_only_preserves {A : Type} (m : M A) :
  reads_only m -> preserves P m.
Proof. intros H s Hs. now rewrite H. Qed.

Lemma preserves_bind {A B : Type} (m : M A) (k : A -> M B) :
  preserves P m -> (forall a, preserves P (k a)) -> preserves P (bind m k).
Proof.
  intros Hm Hk s Hs. rewrite state_of_bind.
  destruct (outcome_of (m s)); [apply Hk|]; now apply Hm.
Qed.

Lemma preserves_modify (f : session -> session) :
  (forall s, P s -> P (f s)) -> preserves P (modify f).
Proof. intros H s Hs. now apply H. Qed.

Lemma preserves_when (b : bool) (m : M unit) :
  preserves P m -> preserves P (when b m).
Proof. intros H. destruct b; [exact H|]. now intros s Hs. Qed.

End Preservation.

Lemma reads_only_bind {A B : Type} (m : M A) (k : A -> M B) :
  reads_only m -> (forall a, reads_only (k a)) -> reads_only (bind m k).
Proof.
  intros Hm Hk s. rewrite state_of_bind.
  destruct (outcome_of (m s)); rewrite Hm; [apply Hk | reflexivity].
Qed.

Lemma reads_only_get : reads_only get.
Proof. now intros s. Qed.

Lemma reads_only_ret {A : Type} (a : A) : reads_only (ret a).
Proof. now intros s. Qed.

Lemma reads_only_emit (m : message) : reads_only (emit m).
Proof. now intros s. Qed.

Lemma reads_only_halt {A : Type} (g : signal) : reads_only (@halt A g).
Proof. now intros s. Qed.

Lemma reads_only_lift {A : Type} (r : exn + A) : reads_only (lift r).
Proof. destruct r; now intros s. Qed.

Lemma reads_only_read_secret : reads_only read_secret.
Proof.
  apply reads_only_bind; [apply reads_only_get|].
  intros s. destruct (secret s);
    [apply reads_only_halt | apply reads_only_ret | apply reads_only_ret].
Qed.

Lemma reads_only_secret_item {A : Type} (key : Secret.t -> A) :
  reads_only (secret_item key).
Proof.
  apply reads_only_bind; [apply reads_only_read_secret|]. intros c.
  apply reads_only_bind; [apply reads_only_lift|]. intros d.
  apply reads_only_ret.
Qed.

Lemma reads_only_secret_get {A : Type} (key : Secret.t -> A) :
  reads_only (secret_get key).
Proof.
  apply reads_only_bind; [apply reads_only_read_secret|].
  intros [d|]; [apply reads_only_ret | apply reads_only_halt].
Qed.

Lemma reads_only_show_answers (l : list (string * string)) :
  reads_only (show_answers l).
Proof.
  induction l as [|[q a] r IH]; [apply reads_only_ret|].
  cbn [show_answers].
  apply reads_only_bind; [apply reads_only_emit|]. intros _.
  apply reads_only_bind; [|intros _; exact IH].
  destruct (q =? "What is the flag?")%string; [|apply reads_only_ret].
  apply reads_only_bind; [apply reads_only_secret_get|].
  intros code. apply reads_only_emit.
Qed.

(** What a read of the secret returns when the store holds a dict. *)
Lemma secret_item_dict {A : Type} (key : Secret.t -> A) (s : session) (d : Secret.t) :
  secret s = Dict d -> secret_item key s = (Done (key d), s, []).
Proof.
  intros H. unfold secret_item, read_secret, bind, get. cbn. rewrite H.
  reflexivity.
Qed.

Lemma secret_get_dict {A : Type} (key : Secret.t -> A) (s : session) (d : Secret.t) :
  secret s = Dict d -> secret_get key s = (Done (key d), s, []).
Proof.
  intros H. unfold secret_get, read_secret, bind, get. cbn. rewrite H.
  reflexivity.
Qed.

Lemma preserves_get_bind (P : session -> Prop) {B : Type} (k : session -> M B) :
  (forall s, P s -> P (state_of (k s s))) -> preserves P (bind get k).
Proof.
  intros H s Hs. rewrite state_of_bind. cbn. now apply H.
Qed.

Lemma preserves_at (P : session -> Prop) {A : Type} (m : M A) (s : session) :
  P s -> preserves P m -> P (state_of (m s)).
Proof. intros Hs H. now apply H. Qed.

(** ** The invariant holds in every reachable state *)

Lemma inv_untouched (s s' : session) :
  previous_hints s' = previous_hints s ->
  answers s' = answers s ->
  asked_questions s' = asked_questions s ->
  leaderboard s' = leaderboard s ->
  inv s -> inv s'.
Proof.
  unfold inv. intros -> -> -> ->. tauto.
Qed.

Ltac untouched :=
  apply preserves_modify; intros ? ?;
  eapply inv_untouched; [..|eassumption]; reflexivity.

Lemma inv_init : inv init_session.
Proof.
  unfold inv, board_ok; cbn. repeat split; try constructor. lia.
Qed.

Lemma setup_new_country_inv (e : env) : preserves inv (setup_new_country e).
Proof.
  unfold setup_new_country.
  apply preserves_bind; [apply reads_only_preserves, reads_only_lift|]. intros entry.
  apply preserves_bind; [apply reads_only_preserves, reads_only_lift|]. intros d.
  untouched.
Qed.

Lemma start_game_inv (e : env) : preserves inv (start_game e).
Proof.
  unfold start_game.
  apply preserves_bind; [untouched|]. intros _.
  apply preserves_bind; [apply setup_new_country_inv|]. intros _.
  intros s (_ & _ & Hl). unfold inv; cbn.
  split; [constructor|]. split; [reflexivity | exact Hl].
Qed.

Lemma out_of_points_guard_inv : preserves inv out_of_points_guard.
Proof.
  unfold out_of_points_guard.
  apply preserves_get_bind. intros s Hs.
  apply preserves_when; [|exact Hs]. apply preserves_when.
  apply preserves_bind;
    [apply reads_only_preserves, reads_only_secret_item|]. intros name.
  apply preserves_bind; [apply reads_only_preserves, reads_only_emit|]. intros _.
  apply preserves_bind; [untouched|]. intros _.
  apply reads_only_preserves, reads_only_halt.
Qed.

Lemma ask_question_inv (avail : list string) : preserves inv (ask_question avail).
Proof.
  unfold ask_question.
  apply preserves_get_bind. intros s Hs.
  destruct (selected_question s) as [q|];
    [|now apply reads_only_preserves; [apply reads_only_emit|]].
  destruct (PyStr.mem q avail);
    [|now apply reads_only_preserves; [apply reads_only_emit|]].
  apply preserves_at; [exact Hs|].
  apply preserves_bind; [apply reads_only_preserves, reads_only_lift|]. intros f.
  apply preserves_bind;
    [apply reads_only_preserves, reads_only_read_secret|]. intros c.
  apply preserves_bind; [apply reads_only_preserves, reads_only_lift|]. intros answer.
  intros s1 (Hh & Ha & Hl). unfold inv; cbn.
  split; [exact Hh|]. split; [|exact Hl].
  rewrite map_app, Ha. reflexivity.
Qed.

Lemma mem_false_not_in (x : string) (l : list string) :
  PyStr.mem x l = false -> ~ In x l.
Proof.
  unfold PyStr.mem. intros H Hin.
  assert (existsb (String.eqb x) l = true) as Ht.
  { apply existsb_exists. exists x. split; [exact Hin | apply String.eqb_refl]. }
  congruence.
Qed.

Lemma mem_true_in (x : string) (l : list string) :
  PyStr.mem x l = true <-> In x l.
Proof.
  unfold PyStr.mem. rewrite existsb_exists. split.
  - intros (y & Hy & Heq). apply String.eqb_eq in Heq. now subst.
  - intros H. exists x. split; [exact H | apply String.eqb_refl].
Qed.

Lemma NoDup_snoc {A : Type} (l : list A) (x : A) :
  NoDup l -> ~ In x l -> NoDup (l ++ [x]).
Proof.
  intros Hl Hx. apply NoDup_rev in Hl.
  rewrite <- (rev_involutive (l ++ [x])). apply NoDup_rev.
  rewrite rev_app_distr. cbn. constructor; [|exact Hl].
  now rewrite <- in_rev.
Qed.

Lemma request_hint_inv (e : env) : preserves inv (request_hint e).
Proof.
  unfold request_hint.
  apply preserves_bind;
    [apply reads_only_preserves, reads_only_secret_item|]. intros country.
  apply preserves_get_bind. intros s Hs.
  destruct (ai_hint e country (difficulty e) (previous_hints s)) as [hint|];
    [|now apply reads_only_preserves; [apply reads_only_emit|]].
  apply preserves_at; [exact Hs|].
  apply preserves_get_bind. intros s1 Hs1.
  destruct (PyStr.mem hint (previous_hints s1)) eqn:Hmem; cbn [negb];
    [now apply reads_only_preserves; [apply reads_only_emit|]|].
  destruct Hs1 as (Hh & Ha & Hl). unfold inv; cbn.
  split; [|now split].
  apply NoDup_snoc; [exact Hh | now apply mem_false_not_in].
Qed.

Lemma wrong_guess_inv (e : env) : preserves inv (wrong_guess e).
Proof.
  unfold wrong_guess.
  apply preserves_bind; [apply reads_only_preserves, reads_only_emit|]. intros _.
  apply preserves_bind; [untouched|]. intros _.
  apply preserves_bind; [untouched|]. intros _.
  apply preserves_get_bind. intros s0 Hs0.
  apply preserves_at; [exact Hs0|].
  apply preserves_bind.
  { apply preserves_when.
    apply preserves_bind;
      [apply reads_only_preserves, reads_only_secret_item|]. intros name.
    apply preserves_bind; [apply reads_only_preserves, reads_only_emit|]. intros _.
    untouched. }
  intros _. apply preserves_get_bind. intros s Hs.
  destruct (attempts s >=? 5); [|now apply request_hint_inv].
  apply preserves_at; [exact Hs|].
  apply preserves_bind;
    [apply reads_only_preserves, reads_only_secret_item|]. intros name.
  apply preserves_bind; [apply reads_only_preserves, reads_only_emit|]. intros _.
  untouched.
Qed.

Lemma correct_guess_inv : preserves inv correct_guess.
Proof.
  unfold correct_guess.
  apply preserves_bind;
    [apply reads_only_preserves, reads_only_secret_item|]. intros name.
  apply preserves_bind; [apply reads_only_preserves, reads_only_emit|]. intros _.
  apply preserves_bind; [untouched|]. intros _.
  apply preserves_bind;
    [apply reads_only_preserves, reads_only_secret_item|]. intros c.
  apply reads_only_preserves.
  do 3 (apply reads_only_bind; [apply reads_only_lift|]; intros _).
  apply reads_only_emit.
Qed.

Lemma submit_guess_inv (e : env) : preserves inv (submit_guess e).
Proof.
  unfold submit_guess.
  apply preserves_bind;
    [apply reads_only_preserves, reads_only_secret_item|]. intros name.
  destruct (_ =? _)%string; [apply correct_guess_inv | apply wrong_guess_inv].
Qed.

Lemma submit_question_inv (e : env) (avail : list string) :
  preserves inv (submit_question e avail).
Proof.
  unfold submit_question.
  apply preserves_bind; [apply ask_question_inv|]. intros _.
  apply preserves_get_bind. intros s Hs.
  apply preserves_at; [exact Hs|].
  apply preserves_bind;
    [apply reads_only_preserves, reads_only_show_answers|]. intros _.
  apply preserves_bind; [apply preserves_when, submit_guess_inv|]. intros _.
  apply preserves_get_bind. intros s1 Hs1. exact Hs1.
Qed.

(** What the score block does to the store, in one step. *)
Lemma submit_score_run (player : string) (s : session) :
  submit_score player s
  = (Done tt,
     set_leaderboard
       (firstn 5 (sorted_desc (updated_board player (points s) (leaderboard s)))) s,
     []).
Proof.
  unfold submit_score, updated_board, bind, get, modify, when, ret.
  destruct (filter _ (leaderboard s)) as [|x r]; cbn.
  - reflexivity.
  - destruct (points s >? max_score x r); reflexivity.
Qed.

Lemma firstn_NoDup {A : Type} (n : nat) (l : list A) :
  NoDup l -> NoDup (firstn n l).
Proof.
  intros H. revert n. induction H as [|x l Hx Hl IH]; intros [|n]; cbn;
    try constructor.
  - intros Hin. apply Hx. eapply in_firstn, Hin.
  - apply IH.
Qed.

Lemma names_filter (f : string * Z -> bool) (l : list (string * Z)) :
  NoDup (map fst l) -> NoDup (map fst (filter f l)).
Proof.
  induction l as [|x l IH]; cbn; [constructor|].
  intros H. inversion H as [|? ? Hx Hl]; subst.
  destruct (f x); cbn; [|now apply IH].
  constructor; [|now apply IH].
  intros Hin. apply Hx. apply in_map_iff in Hin.
  destruct Hin as (y & Hy & Hin). apply filter_In in Hin.
  apply in_map_iff. exists y. tauto.
Qed.

Lemma name_not_in_others (player : string) (l : list (string * Z)) :
  ~ In player (map fst (filter (fun e => negb (fst e =? player)%string) l)).
Proof.
  intros Hin. apply in_map_iff in Hin. destruct Hin as (y & Hy & Hin).
  apply filter_In in Hin. destruct Hin as [_ Hn].
  rewrite Hy, String.eqb_refl in Hn. discriminate.
Qed.

Lemma no_entry_not_in (player : string) (l : list (string * Z)) :
  filter (fun e => (fst e =? player)%string) l = [] <-> ~ In player (map fst l).
Proof.
  split.
  - intros Hnil Hin. apply in_map_iff in Hin. destruct Hin as (y & Hy & Hin).
    assert (In y (filter (fun e => (fst e =? player)%string) l)) as H.
    { apply filter_In. split; [exact Hin|]. rewrite Hy. apply String.eqb_refl. }
    rewrite Hnil in H. exact H.
  - intros Hn. destruct (filter _ l) as [|y r] eqn:Hf; [reflexivity|].
    exfalso. apply Hn.
    assert (In y (filter (fun e => (fst e =? player)%string) l)) as H
      by (rewrite Hf; now left).
    apply filter_In in H. destruct H as [Hin Hy].
    apply String.eqb_eq in Hy. apply in_map_iff. now exists y.
Qed.

Lemma names_snoc (player : string) (v : Z) (l : list (string * Z)) :
  NoDup (map fst l) -> ~ In player (map fst l) ->
  NoDup (map fst (l ++ [(player, v)])).
Proof.
  intros Hl Hn. rewrite map_app. cbn. now apply NoDup_snoc.
Qed.

Lemma updated_board_names (player : string) (score : Z) (lb : list (string * Z)) :
  NoDup (map fst lb) -> NoDup (map fst (updated_board player score lb)).
Proof.
  intros H. unfold updated_board.
  destruct (filter _ lb) as [|x r] eqn:Hf.
  - apply names_snoc; [exact H|]. now apply no_entry_not_in.
  - destruct (score >? max_score x r); [|exact H].
    apply names_snoc; [now apply names_filter | apply name_not_in_others].
Qed.

Lemma board_in_order (l : list (string * Z)) :
  NoDup (map fst l) -> board_ok (firstn 5 (sorted_desc l)).
Proof.
  intros H. split; [|split].
  - apply firstn_sorted, sorted_desc_sorted.
  - apply firstn_le_length.
  - rewrite <- firstn_map. apply firstn_NoDup.
    eapply Permutation_NoDup; [|exact H].
    apply Permutation_map, sorted_desc_perm.
Qed.

Lemma submit_score_inv (player : string) : preserves inv (submit_score player).
Proof.
  intros s (Hh & Ha & _ & _ & Hn). rewrite submit_score_run.
  unfold inv, state_of; cbn.
  split; [exact Hh|]. split; [exact Ha|].
  now apply board_in_order, updated_board_names.
Qed.

Lemma leaderboard_block_inv (e : env) : preserves inv (leaderboard_block e).
Proof.
  unfold leaderboard_block.
  apply preserves_get_bind. intros s Hs.
  apply preserves_at; [exact Hs|].
  do 2 apply preserves_when. apply submit_score_inv.
Qed.

Lemma play_again_inv : preserves inv play_again.
Proof.
  unfold play_again.
  apply preserves_get_bind. intros s Hs.
  apply preserves_at; [exact Hs|].
  apply preserves_bind.
  { apply preserves_when. apply preserves_bind; [untouched|]. intros _. untouched. }
  intros _. apply preserves_bind; [untouched|]. intros _.
  apply preserves_bind; [untouched|]. intros _.
  apply preserves_bind; [untouched|]. intros _.
  apply reads_only_preserves, reads_only_halt.
Qed.

Lemma script_inv (e : env) : preserves inv (script e).
Proof.
  unfold script.
  apply preserves_get_bind. intros s Hs.
  apply preserves_at; [exact Hs|].
  apply preserves_bind; [apply preserves_when, start_game_inv|]. intros _.
  apply preserves_bind; [apply out_of_points_guard_inv|]. intros _.
  apply preserves_get_bind. intros s1 Hs1.
  apply preserves_at; [exact Hs1|].
  apply preserves_bind; [untouched|]. intros _.
  apply preserves_bind; [apply preserves_when, submit_question_inv|]. intros _.
  apply preserves_bind; [apply leaderboard_block_inv|]. intros _.
  apply preserves_when, play_again_inv.
Qed.

Lemma reachable_inv (s : session) : reachable s -> inv s.
Proof.
  induction 1 as [|e s _ IH].
  - apply inv_init.
  - now apply script_inv.
Qed.

(** ** Sanity checks of the model on the sample data *)

Example start_round_on_france :
  script (Sample.press_start Sample.catalog) init_session
  = (Done tt,
     set_selected_question (Some "Is it in Europe?") (Sample.playing 100 0 []),
     [NewCountryLoaded]).
Proof. vm_compute. reflexivity. Qed.

(** ** Country selection *)

Lemma classify_population_bucket (pop : Z) (d : difficulty_t) :
  classify_population pop = target d <->
  match d with
  | easy => 30000000 <= pop
  | medium => 1000000 <= pop < 30000000
  | hard => pop < 1000000
  end.
Proof.
  unfold classify_population.
  destruct (Z.ltb_spec pop 1000000); [|destruct (Z.ltb_spec pop 30000000)];
    destruct d; cbn; split; intros H'; try discriminate; try reflexivity; lia.
Qed.

Lemma random_choice_in {A : Type} (n : nat) (l : list A) (x : A) :
  random_choice n l = inr x -> In x l.
Proof.
  destruct l as [|y r]; [discriminate|]. intros H.
  assert (x = nth (Nat.modulo n (List.length (y :: r))) (y :: r) y) as ->
    by (unfold random_choice in H; congruence).
  apply nth_In. apply Nat.mod_upper_bound. discriminate.
Qed.

Lemma random_choice_error {A : Type} (n : nat) (l : list A) (x : exn) :
  random_choice n l = inl x -> x = IndexError /\ l = [].
Proof.
  destruct l as [|y r]; [|discriminate]. now intros [= <-].
Qed.

(** C3 (amended): whatever the difficulty, the catalog and the draw, a
    selected country belongs to the catalog and its population falls in the
    bucket the difficulty requires (easy: at least 30,000,000; medium: from
    1,000,000 up to, not including, 30,000,000; hard: below 1,000,000).
    The selection fails only when no country of the catalog is eligible;
    it then raises the [IndexError] of [random.choice], the set-up of the
    round ends on that exception and leaves the store as it was. *)
Theorem selection_matches_bucket (e : env) :
  match random_choice (rnd e)
          (get_filtered_country_by_difficulty (raw_data e) (difficulty e)) with
  | inr entry =>
      In entry (raw_data e)
      /\ classify_population (Entry.get (Entry.population entry) 0)
         = target (difficulty e)
      /\ match difficulty e with
         | easy => 30000000 <= Entry.get (Entry.population entry) 0
         | medium => 1000000 <= Entry.get (Entry.population entry) 0 < 30000000
         | hard => Entry.get (Entry.population entry) 0 < 1000000
         end
  | inl x =>
      x = IndexError
      /\ get_filtered_country_by_difficulty (raw_data e) (difficulty e) = []
      /\ forall s, setup_new_country e s = (Halt (Raised IndexError), s, [])
  end.
Proof.
  destruct (random_choice _ _) as [x|entry] eqn:Hc.
  - apply random_choice_error in Hc as Hx. destruct Hx as [-> Hnil].
    repeat split; [exact Hnil|]. intros s.
    unfold setup_new_country, bind. now rewrite Hc.
  - apply random_choice_in in Hc.
    unfold get_filtered_country_by_difficulty in Hc.
    apply filter_In in Hc. destruct Hc as [Hin Hb].
    apply String.eqb_eq in Hb.
    repeat split; [exact Hin | exact Hb |].
    now apply classify_population_bucket.
Qed.

(** C3, as stated, fails: with no country in the bucket of the difficulty
    (here: easy, and a catalog of Chile and Iceland only) the selection
    raises [IndexError], nothing in the script catches it, and the
    execution started by the Start Game button ends on it. *)
Lemma no_eligible_country_is_uncaught :
  get_filtered_country_by_difficulty [Sample.chile; Sample.iceland] easy = []
  /\ setup_new_country (Sample.press_start [Sample.chile; Sample.iceland]) init_session
     = (Halt (Raised IndexError), init_session, [])
  /\ script (Sample.press_start [Sample.chile; Sample.iceland]) init_session
     = (Halt (Raised IndexError), init_session, []).
Proof. repeat split. Qed.

(** ** Round start *)

Lemma start_game_run (e : env) (s : session) :
  start_game e s
  = match random_choice (rnd e)
            (get_filtered_country_by_difficulty (raw_data e) (difficulty e)) with
    | inl x => (Halt (Raised x), set_replay_requested false s, [])
    | inr entry =>
        match secret_of_entry e entry with
        | inl x => (Halt (Raised x), set_replay_requested false s, [])
        | inr d =>
            (Done tt,
             {| game_started := true; points := points s;
                attempts := attempts s; previous_hints := [];
                answers := []; asked_questions := [];
                leaderboard := leaderboard s; secret := Dict d;
                replay_requested := false;
                selected_question := selected_question s |},
             [NewCountryLoaded])
        end
    end.
Proof.
  destruct (random_choice _ _) as [x|entry] eqn:Hc;
    unfold start_game, setup_new_country, bind, modify, lift; rewrite Hc;
    [reflexivity|].
  unfold ret, raise, halt, emit; cbn.
  destruct (secret_of_entry e entry) as [x|d]; reflexivity.
Qed.

(** C2 (amended): the block that starts a round either ends on an
    exception of the set-up, having changed nothing but the replay request,
    or empties the answers, the asked questions and the hints, marks the
    game as started and stores the dict of a country drawn from the
    catalog's eligible records; in both cases points and the count of wrong
    guesses are what they were before, whatever the end of the previous
    round (it is the replay action that resets them after a lost round). *)
Theorem start_game_resets_round (e : env) (s : session) :
  match start_game e s with
  | (Done _, s', _) =>
      answers s' = [] /\ asked_questions s' = [] /\ previous_hints s' = []
      /\ game_started s' = true
      /\ points s' = points s /\ attempts s' = attempts s
      /\ leaderboard s' = leaderboard s
      /\ exists entry d,
           In entry (get_filtered_country_by_difficulty (raw_data e) (difficulty e))
           /\ secret_of_entry e entry = inr d
           /\ secret s' = Dict d
  | (Halt g, s', _) =>
      s' = set_replay_requested false s /\ exists x, g = Raised x
  end.
Proof.
  rewrite start_game_run.
  destruct (random_choice _ _) as [x|entry] eqn:Hc; [split; eauto|].
  destruct (secret_of_entry e entry) as [x|d] eqn:Hd; [split; eauto|].
  cbn. repeat split. exists entry, d.
  repeat split; [|exact Hd]. eapply random_choice_in, Hc.
Qed.

(** C2, as stated, fails: a round won after two wrong guesses is replayed;
    the store is then in the state NOT_STARTED with a count of 2 (and 60
    points), and the start of the next round leaves the count at 2. *)
Lemma round_start_keeps_wrong_guess_count :
  round_of Sample.replayed = NOT_STARTED
  /\ attempts Sample.replayed = 2
  /\ round_of (state_of (start_game Sample.idle Sample.replayed)) = IN_PROGRESS
  /\ attempts (state_of (start_game Sample.idle Sample.replayed)) = 2
  /\ round_of (state_of (script Sample.idle Sample.replayed)) = IN_PROGRESS
  /\ attempts (state_of (script Sample.idle Sample.replayed)) = 2.
Proof. repeat split. Qed.

(** ** Replay *)

Lemma play_again_run (s : session) :
  play_again s
  = (Halt RerunScript,
     {| game_started := false;
        points := if lost s then 100 else points s;
        attempts := if lost s then 0 else attempts s;
        previous_hints := previous_hints s; answers := answers s;
        asked_questions := asked_questions s;
        leaderboard := leaderboard s; secret := PyNone;
        replay_requested := true;
        selected_question := selected_question s |},
     []).
Proof.
  unfold play_again, bind, get, when, modify, halt, ret.
  destruct (lost s); reflexivity.
Qed.

(** ** Questions that are not on offer *)

Lemma not_available (q : string) (asked : list string) :
  In q asked \/ ~ In q (map fst q_map) ->
  PyStr.mem q (available asked) = false.
Proof.
  intros H. destruct (PyStr.mem q (available asked)) eqn:Hm; [|reflexivity].
  apply mem_true_in in Hm. unfold available in Hm.
  apply filter_In in Hm. destruct Hm as [Hkey Hnot].
  destruct H as [H|H]; [|contradiction].
  apply mem_true_in in H. rewrite H in Hnot. discriminate.
Qed.

Lemma ask_question_rejected (avail : list string) (s : session) :
  is_available (selected_question s) avail = false ->
  ask_question avail s = (Done tt, s, [QuestionUnavailable]).
Proof.
  unfold is_available, ask_question, bind, get. cbn.
  destruct (selected_question s) as [q|]; [|reflexivity].
  now intros ->.
Qed.

Section Rejected.

Variables (p : Z) (asked : list string) (given : list (string * string)).
Variable q : string.

Lemma kept_untouched (s s' : session) :
  points s' = points s ->
  asked_questions s' = asked_questions s ->
  answers s' = answers s ->
  kept p asked given s -> kept p asked given s'.
Proof.
  unfold kept. intros -> -> ->. tauto.
Qed.

Lemma out_of_points_guard_kept : preserves (kept p asked given) out_of_points_guard.
Proof.
  unfold out_of_points_guard.
  apply preserves_get_bind. intros s Hs.
  apply preserves_when; [|exact Hs]. apply preserves_when.
  apply preserves_bind;
    [apply reads_only_preserves, reads_only_secret_item|]. intros name.
  apply preserves_bind; [apply reads_only_preserves, reads_only_emit|]. intros _.
  apply preserves_bind;
    [|intros _; apply reads_only_preserves, reads_only_halt].
  apply preserves_modify. intros s1 H1.
  eapply kept_untouched; [..|exact H1]; reflexivity.
Qed.

Lemma leaderboard_block_kept (e : env) :
  preserves (kept p asked given) (leaderboard_block e).
Proof.
  unfold leaderboard_block.
  apply preserves_get_bind. intros s Hs.
  apply preserves_at; [exact Hs|].
  do 2 apply preserves_when.
  intros s1 H1. rewrite submit_score_run.
  eapply kept_untouched; [..|exact H1]; reflexivity.
Qed.

Hypothesis rejected : PyStr.mem q (available asked) = false.

Lemma submit_question_rejected (e : env) (s : session) :
  btn_submit_guess e = false ->
  asked_questions s = asked ->
  selected_question s = Some q ->
  state_of (submit_question e (available asked) s) = s.
Proof.
  intros Hg Ha Hsel. unfold submit_question. rewrite Hg.
  rewrite state_of_bind, ask_question_rejected
    by (rewrite Hsel; exact rejected).
  cbn [outcome_of state_of fst snd].
  rewrite state_of_bind. cbn [get outcome_of state_of fst snd].
  rewrite state_of_bind, reads_only_show_answers.
  destruct (outcome_of _); [|reflexivity].
  reflexivity.
Qed.

Lemma script_rejected (e : env) (s : session) :
  only_question e q ->
  replay_requested s = false ->
  kept p asked given s ->
  kept p asked given (state_of (script e s)).
Proof.
  intros (Hstart & Hq & Hg & Hplay & Hsel) Hreplay Hs.
  unfold script. rewrite state_of_bind. cbn [get outcome_of state_of fst snd].
  rewrite Hstart, Hreplay, Hq, Hplay, Hsel. cbn [orb when].
  apply preserves_at; [exact Hs|].
  apply preserves_bind; [apply reads_only_preserves, reads_only_ret|]. intros _.
  apply preserves_bind; [apply out_of_points_guard_kept|]. intros _.
  apply preserves_get_bind. intros s1 Hs1.
  rewrite state_of_bind. cbn [modify outcome_of state_of fst snd].
  assert (Hs2 : kept p asked given (set_selected_question (Some q) s1))
    by (eapply kept_untouched; [..|exact Hs1]; reflexivity).
  destruct Hs1 as (_ & Ha1 & _). rewrite Ha1.
  rewrite state_of_bind, submit_question_rejected by (assumption || reflexivity).
  destruct (outcome_of _); [|exact Hs2].
  rewrite state_of_bind.
  pose proof (leaderboard_block_kept e _ Hs2) as Hlb.
  destruct (outcome_of _); exact Hlb.
Qed.

End Rejected.

(** C5: when the selected question is already in the list of asked
    questions, or is not one of the catalog, the question block answers
    with the notice that the question is not available and returns the
    store exactly as it found it; and an execution of the whole script in
    which that question is picked and Submit Question alone is pressed
    ends with the points, the asked questions and the answers it started
    with. *)
Theorem rejected_question_changes_nothing (e : env) (s : session) (q : string) :
  In q (asked_questions s) \/ ~ In q (map fst q_map) ->
  (selected_question s = Some q ->
   ask_question (available (asked_questions s)) s
   = (Done tt, s, [QuestionUnavailable]))
  /\ (only_question e q -> replay_requested s = false ->
      points (state_of (script e s)) = points s
      /\ asked_questions (state_of (script e s)) = asked_questions s
      /\ answers (state_of (script e s)) = answers s).
Proof.
  intros H. apply not_available in H. split.
  - intros Hsel. apply ask_question_rejected. now rewrite Hsel.
  - intros He Hr.
    now apply (script_rejected (points s) (asked_questions s) (answers s) q H e s).
Qed.

Lemma rejected_question_witness :
  ask_question (available ["Is it in Europe?"])
    (set_asked_questions ["Is it in Europe?"]
       (set_selected_question (Some "Is it in Europe?") (Sample.playing 98 0 [])))
  = (Done tt,
     set_asked_questions ["Is it in Europe?"]
       (set_selected_question (Some "Is it in Europe?") (Sample.playing 98 0 [])),
     [QuestionUnavailable]).
Proof.
  apply (rejected_question_changes_nothing
           (Sample.press_question "Is it in Europe?")
           (set_asked_questions ["Is it in Europe?"]
              (set_selected_question (Some "Is it in Europe?")
                 (Sample.playing 98 0 [])))
           "Is it in Europe?").
  - left. simpl. left. reflexivity.
  - reflexivity.
Defined.

(** ** Guesses *)

(** Unfolds the primitives of the monad, so that a block applied to a
    store computes. *)
Ltac unfold_monad :=
  unfold secret_item, secret_get, read_secret, lift, subscript, when, raise,
    bind, get, modify, emit, ret, halt, outcome_of, state_of, log_of.

Lemma request_hint_run (e : env) (s : session) (d : Secret.t) :
  secret s = Dict d ->
  request_hint e s
  = match ai_hint e (Secret.name d) (difficulty e) (previous_hints s) with
    | Some h =>
        if PyStr.mem h (previous_hints s)
        then (Done tt, s, [HintDuplicate])
        else (Done tt, set_previous_hints (previous_hints s ++ [h]) s, [HintShown h])
    | None => (Done tt, s, [HintUnavailable])
    end.
Proof.
  intros Hd. unfold request_hint.
  rewrite run_bind, (secret_item_dict _ _ _ Hd).
  unfold outcome_of, state_of, log_of, bind, get; cbn.
  destruct (ai_hint _ _ _ _) as [h|]; [|reflexivity]. cbn.
  destruct (PyStr.mem h (previous_hints s)); reflexivity.
Qed.

Lemma wrong_guess_run (e : env) (s : session) (d : Secret.t) :
  secret s = Dict d ->
  wrong_guess e s
  = let s1 := set_points (points s - 20) (set_attempts (attempts s + 1) s) in
    let s2 := if points s - 20 <=? 0 then set_game_started false s1 else s1 in
    let l2 := if points s - 20 <=? 0 then [OutOfPoints (Secret.name d)] else [] in
    if attempts s + 1 >=? 5
    then (Done tt, set_game_started false s2,
          WrongGuess :: l2 ++ [GameOver (Secret.name d)])
    else (outcome_of (request_hint e s2), state_of (request_hint e s2),
          WrongGuess :: l2 ++ log_of (request_hint e s2)).
Proof.
  intros Hd.
  unfold wrong_guess, request_hint. unfold_monad.
  cbn.
  destruct (points s - 20 <=? 0); repeat (progress (cbn; rewrite ?Hd));
    (destruct (attempts s + 1 >=? 5); repeat (progress (cbn; rewrite ?Hd));
     [reflexivity|]);
    (destruct (ai_hint _ _ _ _) as [h|]; cbn; [|reflexivity]);
    destruct (PyStr.mem h (previous_hints s)); reflexivity.
Qed.

(** A correct guess: the notice, the flag cleared, then the summary or
    the first exception of its three joins. *)
Lemma correct_guess_run (s : session) (d : Secret.t) :
  secret s = Dict d ->
  correct_guess s
  = match summary_error d with
    | None =>
        (Done tt, set_game_started false s, [Correct (Secret.name d); Summary d])
    | Some x =>
        (Halt (Raised x), set_game_started false s, [Correct (Secret.name d)])
    end.
Proof.
  intros Hd. unfold correct_guess, summary_error. unfold_monad.
  repeat (progress (cbn; rewrite ?Hd)).
  destruct (joined (Culture.food (Secret.culture d))); [reflexivity|].
  destruct (joined (Culture.landmark (Secret.culture d))); [reflexivity|].
  destruct (joined (Culture.festival (Secret.culture d))); reflexivity.
Qed.

Lemma submit_guess_run (e : env) (s : session) (d : Secret.t) :
  secret s = Dict d ->
  submit_guess e s
  = if (PyStr.lower (PyStr.strip (guess e)) =? PyStr.lower (Secret.name d))%string
    then correct_guess s
    else wrong_guess e s.
Proof.
  intros Hd. unfold submit_guess.
  rewrite run_bind, (secret_item_dict _ _ _ Hd).
  cbn [outcome_of state_of log_of fst snd].
  destruct (_ =? _)%string.
  - now destruct (correct_guess s) as [[r s'] l].
  - now destruct (wrong_guess e s) as [[r s'] l].
Qed.

(** What a wrong guess does, whatever the state of the round: 20 points
    and one attempt are charged; the game stops when the points are used up
    or the fifth attempt is made; a hint is requested exactly when the
    attempt is not the fifth. *)
Lemma wrong_guess_effect (e : env) (s : session) (d : Secret.t) :
  secret s = Dict d ->
  points (state_of (wrong_guess e s)) = points s - 20
  /\ attempts (state_of (wrong_guess e s)) = attempts s + 1
  /\ game_started (state_of (wrong_guess e s))
     = game_started s && negb (points s - 20 <=? 0) && negb (attempts s + 1 >=? 5)
  /\ hint_requests (log_of (wrong_guess e s))
     = (if attempts s + 1 >=? 5 then 0 else 1)%nat
  /\ previous_hints (state_of (wrong_guess e s))
     = if attempts s + 1 >=? 5 then previous_hints s
       else match ai_hint e (Secret.name d) (difficulty e) (previous_hints s) with
            | Some h => if PyStr.mem h (previous_hints s) then previous_hints s
                        else previous_hints s ++ [h]
            | None => previous_hints s
            end.
Proof.
  intros Hd. rewrite (wrong_guess_run e s d Hd). cbv zeta.
  destruct (attempts s + 1 >=? 5).
  - destruct (points s - 20 <=? 0); cbn;
      rewrite ?andb_false_r, ?andb_true_r; repeat split.
  - assert (Hd2 : secret (if points s - 20 <=? 0
                          then set_game_started false
                                 (set_points (points s - 20)
                                    (set_attempts (attempts s + 1) s))
                          else set_points (points s - 20)
                                 (set_attempts (attempts s + 1) s)) = Dict d)
      by (destruct (points s - 20 <=? 0); exact Hd).
    rewrite (request_hint_run e _ d Hd2).
    destruct (points s - 20 <=? 0); cbn;
      (destruct (ai_hint _ _ _ _) as [h|]; cbn;
       [destruct (PyStr.mem h (previous_hints s)); cbn|]);
      rewrite ?andb_false_r, ?andb_true_r; repeat split.
Qed.

Lemma run_all_reachable (es : list env) (s : session) :
  reachable s -> reachable (run_all es s).
Proof.
  revert s. induction es as [|e es IH]; intros s Hs; [exact Hs|].
  cbn. apply IH. now apply reach_run.
Qed.

(** C1, on the input where the code departs from it.  The store
    [Sample.low_on_points] is reachable: a round in progress with 20 points
    and 3 wrong guesses, no hint shown yet.  A wrong guess then brings the
    points to 0 and the count to 4: the round is lost, the out-of-points
    notice names the country, and yet one hint is requested from the
    generator, shown, and appended to the hints. *)
Theorem hint_requested_after_out_of_points :
  reachable Sample.low_on_points
  /\ round_of Sample.low_on_points = IN_PROGRESS
  /\ points Sample.low_on_points = 20
  /\ attempts Sample.low_on_points = 3
  /\ previous_hints Sample.low_on_points = []
  /\ submit_guess
       (Sample.with_guess "Spain" (Some "Its bakers are known for the baguette"))
       Sample.low_on_points
     = (Done tt,
        set_previous_hints ["Its bakers are known for the baguette"]
          (set_game_started false
             (set_points 0 (set_attempts 4 Sample.low_on_points))),
        [WrongGuess; OutOfPoints "France";
         HintShown "Its bakers are known for the baguette"])
  /\ round_of (state_of
       (submit_guess
          (Sample.with_guess "Spain" (Some "Its bakers are known for the baguette"))
          Sample.low_on_points)) = LOST
  /\ hint_requests (log_of
       (submit_guess
          (Sample.with_guess "Spain" (Some "Its bakers are known for the baguette"))
          Sample.low_on_points)) = 1%nat.
Proof.
  split; [apply run_all_reachable, reach_init|].
  repeat split; vm_compute; reflexivity.
Qed.

(** The test of Play Again, in terms of points and wrong guesses. *)
Lemma lost_iff (s : session) :
  lost s = true <-> points s <= 0 \/ 5 <= attempts s.
Proof.
  unfold lost. rewrite orb_true_iff, Z.leb_le, Z.geb_le. tauto.
Qed.

Lemma lost_false_iff (s : session) :
  lost s = false <-> 0 < points s /\ attempts s < 5.
Proof.
  rewrite <- not_true_iff_false, lost_iff. lia.
Qed.

(** How a round that has ended reads: lost on points or wrong guesses,
    won otherwise. *)
Lemma round_after_end (s : session) (d : Secret.t) :
  secret s = Dict d ->
  round_of (set_game_started false s) = if lost s then LOST else WON.
Proof.
  intros Hd. unfold round_of, lost; cbn. rewrite Hd. reflexivity.
Qed.

Lemma joined_error (field : option json) (x : exn) :
  joined field = inl x -> x = KeyError \/ x = TypeError.
Proof.
  unfold joined, join_error.
  destruct field as [[| | | | |items|]|]; try destruct (forallb is_str items);
    intros [= <-]; auto.
Qed.

Lemma summary_error_kind (d : Secret.t) (x : exn) :
  summary_error d = Some x -> x = KeyError \/ x = TypeError.
Proof.
  unfold summary_error.
  destruct (joined (Culture.food _)) eqn:H1; [intros [= <-]; eauto using joined_error|].
  destruct (joined (Culture.landmark _)) eqn:H2; [intros [= <-]; eauto using joined_error|].
  destruct (joined (Culture.festival _)) eqn:H3; [intros [= <-]; eauto using joined_error|].
  discriminate.
Qed.

(** Three lists of strings can be joined: the summary raises nothing. *)
Lemma three_lists_summary (d : Secret.t) :
  Culture.three_lists (Secret.culture d) = true -> summary_error d = None.
Proof.
  unfold Culture.three_lists, Culture.is_string_list, summary_error, joined,
    join_error.
  destruct (Culture.food _) as [[| | | | |l1|]|]; try discriminate.
  destruct (forallb is_str l1); [|discriminate].
  destruct (Culture.landmark _) as [[| | | | |l2|]|]; try discriminate.
  destruct (forallb is_str l2); [|discriminate].
  destruct (Culture.festival _) as [[| | | | |l3|]|]; try discriminate.
  now destruct (forallb is_str l3).
Qed.

(** C6 (amended): in a round in progress, a guess that equals the name of
    the secret country once it is stripped of surrounding blanks and both
    are put in lower case shows the notice of success and clears the
    started flag; nothing else in the store changes, so points and the
    count of wrong guesses are what they were.  The store keeps no other
    record of the win: the round reads as WON when points are above 0 and
    the count is below 5, and as LOST otherwise.  The summary follows the
    change of the store: it is shown when the secret has the three keys
    food, landmark and festival with values that can be joined, as it has
    with three lists of strings, the three empty lists of the generator's
    failure among them; otherwise the execution ends there on [KeyError]
    (a key is missing) or [TypeError] (a value cannot be joined). *)
Theorem correct_guess_wins (e : env) (s : session) (d : Secret.t) :
  round_of s = IN_PROGRESS ->
  secret s = Dict d ->
  PyStr.lower (PyStr.strip (guess e)) = PyStr.lower (Secret.name d) ->
  state_of (submit_guess e s) = set_game_started false s
  /\ game_started (state_of (submit_guess e s)) = false
  /\ points (state_of (submit_guess e s)) = points s
  /\ attempts (state_of (submit_guess e s)) = attempts s
  /\ (0 < points s -> attempts s < 5 ->
      round_of (state_of (submit_guess e s)) = WON)
  /\ (points s <= 0 \/ 5 <= attempts s ->
      round_of (state_of (submit_guess e s)) = LOST)
  /\ match summary_error d with
     | None =>
         outcome_of (submit_guess e s) = Done tt
         /\ log_of (submit_guess e s) = [Correct (Secret.name d); Summary d]
     | Some x =>
         outcome_of (submit_guess e s) = Halt (Raised x)
         /\ log_of (submit_guess e s) = [Correct (Secret.name d)]
         /\ (x = KeyError \/ x = TypeError)
     end
  /\ (Culture.three_lists (Secret.culture d) = true ->
      submit_guess e s
      = (Done tt, set_game_started false s,
         [Correct (Secret.name d); Summary d]))
  /\ (Secret.culture d = Culture.empty ->
      submit_guess e s
      = (Done tt, set_game_started false s,
         [Correct (Secret.name d); Summary d]))
  /\ (Culture.food (Secret.culture d) = None ->
      submit_guess e s
      = (Halt (Raised KeyError), set_game_started false s,
         [Correct (Secret.name d)]))
  /\ (Culture.food (Secret.culture d) = Some JNull ->
      submit_guess e s
      = (Halt (Raised TypeError), set_game_started false s,
         [Correct (Secret.name d)])).
Proof.
  intros _ Hd Hg.
  rewrite (submit_guess_run e s d Hd), Hg, String.eqb_refl,
    (correct_guess_run s d Hd).
  pose proof (round_after_end s d Hd) as Hround.
  pose proof (summary_error_kind d) as Hkind.
  assert (Hempty : Secret.culture d = Culture.empty -> summary_error d = None)
    by (unfold summary_error; now intros ->).
  assert (Hfood : Culture.food (Secret.culture d) = None
                  -> summary_error d = Some KeyError)
    by (unfold summary_error; now intros ->).
  assert (Hnull : Culture.food (Secret.culture d) = Some JNull
                  -> summary_error d = Some TypeError)
    by (unfold summary_error; now intros ->).
  pose proof (three_lists_summary d) as Hlists.
  assert (Hwon : 0 < points s -> attempts s < 5 -> (if lost s then LOST else WON) = WON).
  { intros Hp Ha.
    assert (lost s = false) as -> by (apply lost_false_iff; lia). reflexivity. }
  assert (Hlost : points s <= 0 \/ 5 <= attempts s
                  -> (if lost s then LOST else WON) = LOST).
  { intros Hl. apply lost_iff in Hl. now rewrite Hl. }
  destruct (summary_error d) as [x|];
    unfold state_of, outcome_of, log_of; cbn [fst snd]; rewrite Hround;
    (split; [reflexivity|]); do 3 (split; [reflexivity|]);
    (split; [exact Hwon|]); (split; [exact Hlost|]).
  - repeat split.
    + now apply Hkind.
    + intros H. now specialize (Hlists H).
    + intros H. now specialize (Hempty H).
    + intros H. specialize (Hfood H). congruence.
    + intros H. specialize (Hnull H). congruence.
  - repeat split.
    + intros H. now specialize (Hfood H).
    + intros H. now specialize (Hnull H).
Qed.

Lemma correct_guess_witness :
  outcome_of (submit_guess (Sample.with_guess Cases.shouted_reunion None)
                (Cases.round_on_reunion 58 2)) = Done tt
  /\ log_of (submit_guess (Sample.with_guess Cases.shouted_reunion None)
               (Cases.round_on_reunion 58 2))
     = [Correct Cases.reunion; Summary Cases.reunion_secret]
  /\ points (state_of (submit_guess (Sample.with_guess Cases.shouted_reunion None)
                         (Cases.round_on_reunion 58 2))) = 58
  /\ attempts (state_of (submit_guess (Sample.with_guess Cases.shouted_reunion None)
                           (Cases.round_on_reunion 58 2))) = 2
  /\ round_of (state_of (submit_guess (Sample.with_guess Cases.shouted_reunion None)
                           (Cases.round_on_reunion 58 2))) = WON.
Proof.
  pose proof (correct_guess_wins (Sample.with_guess Cases.shouted_reunion None)
                (Cases.round_on_reunion 58 2) Cases.reunion_secret
                eq_refl eq_refl eq_refl)
    as (_ & _ & Hp & Ha & Hwon & _ & Hsum & _).
  cbn in Hsum. destruct Hsum as [Ho Hl].
  split; [exact Ho|]. split; [exact Hl|]. split; [exact Hp|]. split; [exact Ha|].
  apply Hwon; cbn; lia.
Defined.

(** C6, as stated, fails.  The store [Cases.last_two_points] is reachable
    by single presses: a round on France in progress with 2 points.  In one
    execution the player submits a question, which takes the last 2
    points, and the right guess: the notice of success is shown, points
    and count are left as the question left them, and the store is that of
    a LOST round, which Play Again then resets to 100 points.  The same
    holds of the guess block alone on the store the question leaves. *)
Lemma right_guess_without_points_reads_lost :
  reachable Cases.last_two_points
  /\ round_of Cases.last_two_points = IN_PROGRESS
  /\ points Cases.last_two_points = 2
  /\ secret Cases.last_two_points = Dict Sample.france_secret
  /\ script (Cases.question_and_guess "Does it have a coastline?" "France")
       Cases.last_two_points
     = (Done tt,
        set_game_started false
          (set_selected_question (Some "Does it have a coastline?")
             Cases.no_points_left),
        [AnswerBox "Is it in Europe?" "Yes, it's in Europe";
         AnswerBox "Does it have a coastline?" "Yes";
         Correct "France"; Summary Sample.france_secret; Status 5 0])
  /\ round_of (state_of
       (script (Cases.question_and_guess "Does it have a coastline?" "France")
          Cases.last_two_points)) = LOST
  /\ round_of Cases.no_points_left = IN_PROGRESS
  /\ points Cases.no_points_left = 0
  /\ submit_guess (Sample.with_guess "France" None) Cases.no_points_left
     = (Done tt, set_game_started false Cases.no_points_left,
        [Correct "France"; Summary Sample.france_secret])
  /\ round_of (state_of
       (submit_guess (Sample.with_guess "France" None) Cases.no_points_left))
     = LOST
  /\ points (state_of
       (script Sample.press_play_again
          (state_of
             (script (Cases.question_and_guess "Does it have a coastline?" "France")
                Cases.last_two_points)))) = 100.
Proof.
  split; [apply run_all_reachable, reach_init|].
  repeat split; vm_compute; reflexivity.
Qed.

(** The summary of a right guess on what the generator left: with the
    reply [{}] the secret has none of the three keys, and the guess ends on
    [KeyError] once the round is closed. *)
Example summary_raises_without_food :
  script (Cases.start_with_reply (Reply.Object Cases.empty_object)) init_session
  = (Done tt,
     set_selected_question (Some "Is it in Europe?")
       (set_secret
          (Dict {| Secret.name := "France"; Secret.region := "Europe";
                   Secret.population := "large"; Secret.capital := "Paris";
                   Secret.coastline := true; Secret.neighbors := 8;
                   Secret.un := true; Secret.language := "French";
                   Secret.fifa := "FRA"; Secret.cca2 := "FR";
                   Secret.culture := Culture.mk None None None |})
          (Sample.playing 100 0 [])),
     [NewCountryLoaded])
  /\ outcome_of
       (script (Sample.with_guess "France" None)
          (state_of (script (Cases.start_with_reply (Reply.Object Cases.empty_object))
                       init_session)))
     = Halt (Raised KeyError)
  /\ game_started
       (state_of
          (script (Sample.with_guess "France" None)
             (state_of (script (Cases.start_with_reply (Reply.Object Cases.empty_object))
                          init_session))))
     = false.
Proof. repeat split. Qed.

(** ** Hints *)

(** C8: in every reachable state of the store the hints shown are
    pairwise different; and when the generator answers a request with a
    hint that is already among them, the request ends with the notice of a
    duplicate and the store exactly as it was, also when the request is
    part of a wrong guess that is not the fifth. *)
Theorem hints_never_repeat (e : env) (s : session) :
  reachable s ->
  NoDup (previous_hints s)
  /\ forall (d : Secret.t) (h : string),
       secret s = Dict d ->
       ai_hint e (Secret.name d) (difficulty e) (previous_hints s) = Some h ->
       In h (previous_hints s) ->
       request_hint e s = (Done tt, s, [HintDuplicate])
       /\ previous_hints (state_of (wrong_guess e s)) = previous_hints s.
Proof.
  intros Hr. split; [apply (reachable_inv s Hr)|].
  intros d h Hd Hh Hin. apply mem_true_in in Hin. split.
  - now rewrite (request_hint_run e s d Hd), Hh, Hin.
  - destruct (wrong_guess_effect e s d Hd) as (_ & _ & _ & _ & ->).
    rewrite Hh, Hin. now destruct (attempts s + 1 >=? 5).
Qed.

Lemma hints_never_repeat_witness :
  NoDup (previous_hints Sample.after_wrong_guess)
  /\ request_hint Sample.idle Sample.after_wrong_guess
     = (Done tt, Sample.after_wrong_guess, [HintDuplicate])
  /\ previous_hints (state_of (wrong_guess Sample.idle Sample.after_wrong_guess))
     = ["Its bakers are known for the baguette"].
Proof.
  destruct (hints_never_repeat Sample.idle Sample.after_wrong_guess) as [Hnd Hdup].
  - unfold Sample.after_wrong_guess. apply reach_run, reach_run, reach_init.
  - split; [exact Hnd|].
    apply (Hdup Sample.france_secret "Its bakers are known for the baguette").
    + vm_compute. reflexivity.
    + vm_compute. reflexivity.
    + vm_compute. left. reflexivity.
Defined.

(** ** Questions that are on offer *)

Lemma answer_to_defined (q : string) (d : Secret.t) :
  In q (map fst q_map) -> exists a, answer_to q d = Some a.
Proof.
  cbn. intros H.
  repeat (destruct H as [<-|H]; [eexists; reflexivity|]).
  contradiction.
Qed.

Lemma available_iff (q : string) (asked : list string) :
  PyStr.mem q (available asked) = true
  <-> In q (map fst q_map) /\ ~ In q asked.
Proof.
  rewrite mem_true_in. unfold available. rewrite filter_In.
  split; intros [Hk Hn]; (split; [exact Hk|]).
  - apply mem_false_not_in. now destruct (PyStr.mem q asked).
  - destruct (PyStr.mem q asked) eqn:Hm; [|reflexivity].
    apply mem_true_in in Hm. contradiction.
Qed.

Lemma ask_question_run (avail : list string) (s : session) (d : Secret.t)
    (q a : string) :
  selected_question s = Some q ->
  PyStr.mem q avail = true ->
  secret s = Dict d ->
  answer_to q d = Some a ->
  ask_question avail s
  = (Done tt,
     set_points (points s - 2)
       (set_asked_questions (asked_questions s ++ [q])
          (set_answers (answers s ++ [(q, a)]) s)),
     []).
Proof.
  intros Hsel Hm Hd Ha. unfold answer_to in Ha.
  destruct (lookup q q_map) as [x|f] eqn:Hl; [discriminate|].
  destruct (f (Some d)) as [x|a'] eqn:Hf; [discriminate|].
  injection Ha as ->.
  unfold ask_question. unfold_monad.
  repeat (progress (cbn -[lookup q_map]; rewrite ?Hsel, ?Hm, ?Hl, ?Hd, ?Hf)).
  reflexivity.
Qed.

Lemma show_answers_run (l : list (string * string)) (s : session) (d : Secret.t) :
  secret s = Dict d ->
  show_answers l s = (Done tt, s, log_of (show_answers l s)).
Proof.
  intros Hd. induction l as [|[q a] r IH]; [reflexivity|].
  cbn [show_answers]. rewrite !run_bind. cbn [emit].
  rewrite !run_bind.
  destruct (q =? "What is the flag?")%string.
  - rewrite run_bind, (secret_get_dict _ _ _ Hd). cbn.
    rewrite IH. reflexivity.
  - cbn. rewrite IH. reflexivity.
Qed.

(** Stepping over a block whose outcome and store are known. *)
Lemma fst_bind_done {A B : Type} (m : M A) (k : A -> M B) (s s1 : session) (a : A) :
  fst (m s) = (Done a, s1) -> fst (bind m k s) = fst (k a s1).
Proof.
  unfold bind. destruct (m s) as [[r s'] l]. cbn. intros [= -> ->].
  now destruct (k a s1) as [[r2 s2] l2].
Qed.

Lemma out_of_points_guard_skip (s : session) :
  (points s <=? 0) = false -> fst (out_of_points_guard s) = (Done tt, s).
Proof.
  intros H. unfold out_of_points_guard, bind, get. cbn. rewrite H.
  now destruct (game_started s).
Qed.

Lemma leaderboard_block_skip (e : env) (s : session) :
  game_started s = true -> fst (leaderboard_block e s) = (Done tt, s).
Proof.
  intros H. unfold leaderboard_block, bind, get. cbn. now rewrite H.
Qed.

Lemma submit_question_asks (e : env) (avail : list string) (s : session)
    (d : Secret.t) (q a : string) :
  btn_submit_guess e = false ->
  selected_question s = Some q ->
  PyStr.mem q avail = true ->
  secret s = Dict d ->
  answer_to q d = Some a ->
  fst (submit_question e avail s)
  = (Done tt,
     set_points (points s - 2)
       (set_asked_questions (asked_questions s ++ [q])
          (set_answers (answers s ++ [(q, a)]) s))).
Proof.
  intros Hg Hsel Hm Hd Ha. unfold submit_question. rewrite Hg.
  erewrite fst_bind_done
    by (rewrite (ask_question_run avail s d q a Hsel Hm Hd Ha); reflexivity).
  erewrite fst_bind_done by reflexivity.
  erewrite fst_bind_done
    by (rewrite (show_answers_run _ _ d) by exact Hd; reflexivity).
  erewrite fst_bind_done by reflexivity.
  erewrite fst_bind_done by reflexivity.
  reflexivity.
Qed.

(** An execution in which an available question is picked and Submit
    Question alone is pressed, in a round in progress with points left. *)
Lemma script_ask_run (e : env) (s : session) (d : Secret.t) (q a : string) :
  only_question e q ->
  game_started s = true ->
  replay_requested s = false ->
  0 < points s ->
  secret s = Dict d ->
  PyStr.mem q (available (asked_questions s)) = true ->
  answer_to q d = Some a ->
  fst (script e s)
  = (Done tt,
     set_points (points s - 2)
       (set_asked_questions (asked_questions s ++ [q])
          (set_answers (answers s ++ [(q, a)])
             (set_selected_question (Some q) s)))).
Proof.
  intros (Hstart & Hq & Hg & Hplay & Hsel) Hgs Hr Hp Hd Hm Ha.
  assert (Hpos : (points s <=? 0) = false) by (apply Z.leb_gt; exact Hp).
  unfold script. rewrite Hstart, Hq, Hplay, Hsel.
  erewrite fst_bind_done by reflexivity. rewrite Hr. cbn [orb when].
  erewrite fst_bind_done by reflexivity.
  erewrite fst_bind_done by (apply out_of_points_guard_skip, Hpos).
  erewrite fst_bind_done by reflexivity.
  erewrite fst_bind_done by reflexivity.
  erewrite fst_bind_done
    by (apply (submit_question_asks e _ (set_selected_question (Some q) s) d q a
                 Hg eq_refl Hm Hd Ha)).
  erewrite fst_bind_done by (apply leaderboard_block_skip; exact Hgs).
  reflexivity.
Qed.

(** C9: in a round in progress with points left, an execution in which
    a question of the catalog that was not asked yet is picked and Submit
    Question alone is pressed completes, takes exactly 2 points, and
    appends the question with its answer to the answers and the question to
    the asked questions; the question block alone does the same on any
    store holding a secret.  In particular three such executions with
    three different questions, from a round started at 100 points with
    nothing asked, leave exactly 94 points. *)
Theorem asking_costs_two_points (e1 e2 e3 : env) (s : session) (d : Secret.t)
    (q1 q2 q3 : string) :
  only_question e1 q1 -> only_question e2 q2 -> only_question e3 q3 ->
  In q1 (map fst q_map) -> In q2 (map fst q_map) -> In q3 (map fst q_map) ->
  NoDup [q1; q2; q3] ->
  game_started s = true ->
  replay_requested s = false ->
  secret s = Dict d ->
  ~ In q1 (asked_questions s) ->
  0 < points s ->
  exists a1,
    answer_to q1 d = Some a1
    /\ ask_question (available (asked_questions s))
         (set_selected_question (Some q1) s)
       = (Done tt,
          set_points (points s - 2)
            (set_asked_questions (asked_questions s ++ [q1])
               (set_answers (answers s ++ [(q1, a1)])
                  (set_selected_question (Some q1) s))),
          [])
    /\ outcome_of (script e1 s) = Done tt
    /\ points (state_of (script e1 s)) = points s - 2
    /\ asked_questions (state_of (script e1 s)) = asked_questions s ++ [q1]
    /\ answers (state_of (script e1 s)) = answers s ++ [(q1, a1)]
    /\ (points s = 100 -> asked_questions s = [] ->
        points (state_of (script e3 (state_of (script e2 (state_of (script e1 s))))))
        = 94
        /\ asked_questions
             (state_of (script e3 (state_of (script e2 (state_of (script e1 s))))))
           = [q1; q2; q3]).
Proof.
  intros He1 He2 He3 Hk1 Hk2 Hk3 Hnd Hgs Hr Hd Hn1 Hp.
  destruct (answer_to_defined q1 d Hk1) as [a1 Ha1].
  destruct (answer_to_defined q2 d Hk2) as [a2 Ha2].
  destruct (answer_to_defined q3 d Hk3) as [a3 Ha3].
  assert (Hm1 : PyStr.mem q1 (available (asked_questions s)) = true)
    by (apply available_iff; split; assumption).
  pose proof (script_ask_run e1 s d q1 a1 He1 Hgs Hr Hp Hd Hm1 Ha1) as H1.
  exists a1. split; [exact Ha1|]. split.
  { exact (ask_question_run _ (set_selected_question (Some q1) s) d q1 a1
             eq_refl Hm1 Hd Ha1). }
  unfold outcome_of, state_of. rewrite H1. cbn [fst snd].
  repeat (split; [reflexivity|]).
  intros H100 Hnil.
  set (s1 := set_points _ _) in *.
  inversion Hnd as [|? ? Hq1 Hnd2]; subst.
  inversion Hnd2 as [|? ? Hq2 _]; subst.
  assert (Hm2 : PyStr.mem q2 (available (asked_questions s1)) = true).
  { apply available_iff. split; [exact Hk2|]. cbn. rewrite Hnil. cbn.
    intros [E|F]; [|exact F]. apply Hq1. left. now symmetry. }
  assert (Hp1 : 0 < points s1) by (cbn; lia).
  pose proof (script_ask_run e2 s1 d q2 a2 He2 Hgs Hr Hp1 Hd Hm2 Ha2) as H2.
  rewrite H2. cbn [snd]. set (s2 := set_points (points s1 - 2) _) in *.
  assert (Hm3 : PyStr.mem q3 (available (asked_questions s2)) = true).
  { apply available_iff. split; [exact Hk3|]. cbn. rewrite Hnil. cbn.
    intros [E|[E|F]]; [| |exact F].
    - apply Hq1. right. left. now symmetry.
    - apply Hq2. left. now symmetry. }
  assert (Hp2 : 0 < points s2) by (cbn; lia).
  pose proof (script_ask_run e3 s2 d q3 a3 He3 Hgs Hr Hp2 Hd Hm3 Ha3) as H3.
  rewrite H3. cbn. rewrite Hnil. split; [lia | reflexivity].
Qed.

Lemma asking_costs_two_points_witness :
  points (state_of
    (script (Sample.press_question "Is it a UN member?")
       (state_of (script (Sample.press_question "Does it have a coastline?")
          (state_of (script (Sample.press_question "Is it in Europe?")
             (Sample.playing 100 0 [])))))))
  = 94.
Proof.
  destruct (asking_costs_two_points
              (Sample.press_question "Is it in Europe?")
              (Sample.press_question "Does it have a coastline?")
              (Sample.press_question "Is it a UN member?")
              (Sample.playing 100 0 []) Sample.france_secret
              "Is it in Europe?" "Does it have a coastline?" "Is it a UN member?")
    as (a1 & _ & _ & _ & _ & _ & _ & H).
  - repeat split.
  - repeat split.
  - repeat split.
  - simpl. tauto.
  - simpl. tauto.
  - simpl. tauto.
  - repeat constructor; simpl; intuition discriminate.
  - reflexivity.
  - reflexivity.
  - reflexivity.
  - simpl. tauto.
  - reflexivity.
  - apply H; reflexivity.
Defined.

(** ** Answers and asked questions *)

(** C10: in every reachable state of the store the answers and the asked
    questions have the same length, and the question of the i-th answer is
    the i-th asked question. *)
Theorem answers_follow_asked (s : session) :
  reachable s ->
  map fst (answers s) = asked_questions s
  /\ List.length (answers s) = List.length (asked_questions s)
  /\ forall (i : nat) (q a : string),
       nth_error (answers s) i = Some (q, a) ->
       nth_error (asked_questions s) i = Some q.
Proof.
  intros Hr. destruct (reachable_inv s Hr) as (_ & Heq & _).
  split; [exact Heq|]. split.
  - rewrite <- Heq. now rewrite length_map.
  - intros i q a Hi. rewrite <- Heq.
    rewrite nth_error_map, Hi. reflexivity.
Qed.

Lemma answers_follow_asked_witness :
  map fst (answers Sample.after_two_questions)
  = ["Is it in Europe?"; "Does it have a coastline?"]
  /\ List.length (answers Sample.after_two_questions) = 2%nat.
Proof.
  destruct (answers_follow_asked Sample.after_two_questions) as (H1 & H2 & _).
  - unfold Sample.after_two_questions.
    apply reach_run, reach_run, reach_run, reach_init.
  - split; [exact H1 | exact H2].
Defined.

(** ** Leaderboard *)

Lemma one_entry_per_name (p : string) (a b : Z) (l : list (string * Z)) :
  NoDup (map fst l) -> In (p, a) l -> In (p, b) l -> a = b.
Proof.
  induction l as [|x l IH]; cbn; [tauto|].
  intros H. inversion H as [|? ? Hx Hl]; subst.
  intros [Ha|Ha] [Hb|Hb].
  - congruence.
  - subst x. exfalso. apply Hx. apply in_map_iff. now exists (p, b).
  - subst x. exfalso. apply Hx. apply in_map_iff. now exists (p, a).
  - now apply IH.
Qed.

Lemma unique_entry (p : string) (v : Z) (l : list (string * Z)) :
  NoDup (map fst l) -> In (p, v) l ->
  filter (fun e => (fst e =? p)%string) l = [(p, v)].
Proof.
  induction l as [|x l IH]; cbn; [tauto|].
  intros H. inversion H as [|? ? Hx Hl]; subst.
  intros [Hin|Hin].
  - subst x. cbn. rewrite String.eqb_refl. f_equal.
    now apply no_entry_not_in.
  - destruct (String.eqb_spec (fst x) p) as [E|E]; [|now apply IH].
    exfalso. apply Hx. rewrite E. apply in_map_iff. now exists (p, v).
Qed.

Lemma filter_drops (f : string * Z -> bool) (x : string * Z) (l : list (string * Z)) :
  In x l -> f x = false ->
  (List.length (filter f l) < List.length l)%nat.
Proof.
  induction l as [|y l IH]; cbn; [tauto|].
  intros [->|Hin] Hf.
  - rewrite Hf. pose proof (filter_length_le f l). lia.
  - specialize (IH Hin Hf). destruct (f y); cbn; lia.
Qed.

Lemma leaderboard_block_no_name (e : env) (s : session) :
  player_name e = "" -> leaderboard_block e s = (Done tt, s, []).
Proof.
  intros H. unfold leaderboard_block, bind, get. cbn. rewrite H. cbn.
  rewrite andb_false_r. now destruct (negb (game_started s) && has_secret s).
Qed.

(** C7 (amended): with an empty player name the score block does
    nothing.  Otherwise the board becomes the first five entries of the
    stable sort, by decreasing score, of an updated list; it is therefore in
    decreasing order, of at most five entries, one per player, and entries
    of equal score stand in the order of the updated list.  The updated
    list is the board itself when the player has an entry with a score at
    least as high as the points (the board is then unchanged); it is the
    board without the player's entry, followed by the player with the
    points, when the stored score is strictly lower (the new score is then
    on the board, and is the player's only entry); and it is the board
    followed by the player with the points when the player has no entry. *)
Theorem leaderboard_submission (e : env) (s : session) (player : string) :
  reachable s ->
  (player_name e = "" -> leaderboard_block e s = (Done tt, s, []))
  /\ submit_score player s
     = (Done tt,
        set_leaderboard
          (firstn 5 (sorted_desc (updated_board player (points s) (leaderboard s)))) s,
        [])
  /\ board_ok (leaderboard (state_of (submit_score player s)))
  /\ Permutation (updated_board player (points s) (leaderboard s))
       (sorted_desc (updated_board player (points s) (leaderboard s)))
  /\ (forall v,
        filter (fun x => snd x =? v)
          (sorted_desc (updated_board player (points s) (leaderboard s)))
        = filter (fun x => snd x =? v)
            (updated_board player (points s) (leaderboard s)))
  /\ (forall v, In (player, v) (leaderboard s) -> points s <= v ->
        leaderboard (state_of (submit_score player s)) = leaderboard s)
  /\ (forall v, In (player, v) (leaderboard s) -> v < points s ->
        updated_board player (points s) (leaderboard s)
        = filter (fun x => negb (fst x =? player)%string) (leaderboard s)
          ++ [(player, points s)]
        /\ In (player, points s) (leaderboard (state_of (submit_score player s)))
        /\ forall w, In (player, w) (leaderboard (state_of (submit_score player s)))
                     -> w = points s)
  /\ (~ In player (map fst (leaderboard s)) ->
        updated_board player (points s) (leaderboard s)
        = leaderboard s ++ [(player, points s)]).
Proof.
  intros Hr. destruct (reachable_inv s Hr) as (_ & _ & Hsorted & Hlen & Hnames).
  split; [apply leaderboard_block_no_name|].
  split; [apply submit_score_run|].
  rewrite submit_score_run. unfold state_of. cbn [fst snd leaderboard set_leaderboard].
  pose proof (board_in_order _ (updated_board_names player (points s) _ Hnames))
    as Hboard.
  split; [exact Hboard|].
  split; [apply sorted_desc_perm|].
  split; [intros v; apply sorted_desc_stable|].
  split; [|split].
  - intros v Hin Hle. unfold updated_board.
    rewrite (unique_entry player v _ Hnames Hin).
    change (max_score (player, v) []) with v.
    replace (points s >? v) with false
      by (symmetry; rewrite Z.gtb_ltb; apply Z.ltb_ge; lia).
    rewrite sorted_desc_fixpoint by exact Hsorted.
    now apply firstn_all2.
  - intros v Hin Hlt.
    assert (Hupd : updated_board player (points s) (leaderboard s)
                   = filter (fun x => negb (fst x =? player)%string) (leaderboard s)
                     ++ [(player, points s)]).
    { unfold updated_board. rewrite (unique_entry player v _ Hnames Hin).
      change (max_score (player, v) []) with v.
      now replace (points s >? v) with true
        by (symmetry; rewrite Z.gtb_ltb; apply Z.ltb_lt; lia). }
    split; [exact Hupd|].
    assert (Hin' : In (player, points s)
                     (firstn 5 (sorted_desc
                        (updated_board player (points s) (leaderboard s))))).
    { rewrite firstn_all2.
      - eapply Permutation_in; [apply sorted_desc_perm|].
        rewrite Hupd. apply in_or_app. right. now left.
      - rewrite <- (Permutation_length (sorted_desc_perm _)), Hupd.
        rewrite length_app. cbn.
        pose proof (filter_drops (fun x => negb (fst x =? player)%string)
                      (player, v) (leaderboard s) Hin) as Hd.
        cbn in Hd. rewrite String.eqb_refl in Hd. specialize (Hd eq_refl). lia. }
    split; [exact Hin'|].
    intros w Hw. destruct Hboard as (_ & _ & Hn).
    exact (one_entry_per_name player w (points s) _ Hn Hw Hin').
  - intros Hno. unfold updated_board.
    now rewrite (proj2 (no_entry_not_in player (leaderboard s)) Hno).
Qed.

Lemma leaderboard_submission_witness :
  leaderboard Sample.after_score = [("Ada", 100)]
  /\ leaderboard (state_of (submit_score "Ada" Sample.after_score))
     = leaderboard Sample.after_score.
Proof.
  split; [vm_compute; reflexivity|].
  destruct (leaderboard_submission Sample.idle Sample.after_score "Ada")
    as (_ & _ & _ & _ & _ & Hkeep & _).
  - unfold Sample.after_score. apply reach_run, reach_run, reach_run, reach_init.
  - apply (Hkeep 100).
    + vm_compute. left. reflexivity.
    + vm_compute. discriminate.
Defined.

(** C7, as stated, fails on a blank name: after a round won with 100
    points, a name made of one space is blank (stripping it leaves nothing)
    and yet it is accepted, and the score is recorded under it. *)
Lemma blank_name_is_recorded :
  PyStr.strip " " = ""
  /\ leaderboard Sample.won = []
  /\ leaderboard_block (Sample.press_score " ") Sample.won
     = (Done tt, set_leaderboard [(" ", 100)] Sample.won, [])
  /\ leaderboard (state_of (script (Sample.press_score " ") Sample.won))
     = [(" ", 100)].
Proof. repeat split. Qed.

(** The scenario of the specification: Ada scores 80, then 60, then 95. *)
Example ada_keeps_her_best :
  leaderboard (state_of (submit_score "Ada" (Sample.finished 80 1 [])))
  = [("Ada", 80)]
  /\ leaderboard (state_of (submit_score "Ada" (Sample.finished 60 2 [("Ada", 80)])))
     = [("Ada", 80)]
  /\ leaderboard (state_of (submit_score "Ada" (Sample.finished 95 0 [("Ada", 80)])))
     = [("Ada", 95)].
Proof. repeat split. Qed.

(** Equal scores: the entry that was on the board first stays first, and
    a sixth entry falls off the board. *)
Example ties_keep_their_order :
  leaderboard (state_of (submit_score "Eve"
    (Sample.finished 70 0 [("Ada", 90); ("Bob", 70); ("Cy", 70); ("Dan", 50); ("Flo", 40)])))
  = [("Ada", 90); ("Bob", 70); ("Cy", 70); ("Eve", 70); ("Dan", 50)].
Proof. reflexivity. Qed.

(** ** Replay after a round *)

Lemma out_of_points_guard_passes (s : session) :
  (game_started s = true -> 0 < points s) ->
  out_of_points_guard s = (Done tt, s, []).
Proof.
  intros H. unfold out_of_points_guard. rewrite bind_get_eq.
  destruct (game_started s); [|reflexivity]. cbn [when].
  assert ((points s <=? 0) = false) as -> by (apply Z.leb_gt; auto).
  reflexivity.
Qed.

(** With no points left in a game flagged as started, the guard ends the
    execution, by [st.stop()] or on the exception of reading the secret;
    it assigns nothing but the started flag. *)
Lemma out_of_points_guard_halts (s : session) :
  game_started s = true -> points s <= 0 ->
  exists g s1 l,
    out_of_points_guard s = (Halt g, s1, l)
    /\ g <> RerunScript
    /\ points s1 = points s /\ attempts s1 = attempts s
    /\ secret s1 = secret s /\ replay_requested s1 = replay_requested s.
Proof.
  intros Hg Hp. apply Z.leb_le in Hp.
  unfold out_of_points_guard. rewrite bind_get_eq, Hg, Hp. cbn [when].
  unfold_monad. cbn.
  destruct (secret s) eqn:Hd; cbn; do 3 eexists;
    (split; [reflexivity|]); repeat split; try discriminate; exact Hd.
Qed.

Lemma leaderboard_block_idle (e : env) (s : session) :
  btn_submit_score e = false -> leaderboard_block e s = (Done tt, s, []).
Proof.
  intros H. unfold leaderboard_block. rewrite bind_get_eq, H. cbn [andb when].
  now destruct (negb (game_started s) && has_secret s).
Qed.

(** An execution in which only Play Again is pressed reaches the block of
    Play Again unless the guard stops it. *)
Lemma script_play_again_run (e : env) (s : session) :
  only_play_again e ->
  replay_requested s = false ->
  (game_started s = true -> 0 < points s) ->
  fst (script e s)
  = fst (play_again (set_selected_question (question_selector e) s)).
Proof.
  intros (Hs & Hq & Hsc & Hp) Hr Hg.
  unfold script. rewrite bind_get_eq, Hs, Hr, Hq, Hp. cbn [orb when].
  erewrite fst_bind_done by reflexivity.
  erewrite fst_bind_done by (now rewrite out_of_points_guard_passes).
  rewrite bind_get_eq.
  erewrite fst_bind_done by reflexivity.
  erewrite fst_bind_done by reflexivity.
  erewrite fst_bind_done by (now rewrite leaderboard_block_idle).
  reflexivity.
Qed.

Lemma script_play_again_stopped (e : env) (s : session) :
  btn_start e = false ->
  replay_requested s = false ->
  game_started s = true -> points s <= 0 ->
  outcome_of (script e s) <> Halt RerunScript
  /\ points (state_of (script e s)) = points s
  /\ attempts (state_of (script e s)) = attempts s
  /\ secret (state_of (script e s)) = secret s
  /\ replay_requested (state_of (script e s)) = false.
Proof.
  intros Hs Hr Hg Hp.
  destruct (out_of_points_guard_halts s Hg Hp)
    as (g & s1 & l & Hrun & Hne & H1 & H2 & H3 & H4).
  unfold script. rewrite bind_get_eq, Hs, Hr. cbn [orb when].
  rewrite (bind_done _ _ s s s1 tt (Halt g) [] l eq_refl
             (bind_halt _ _ _ _ _ _ Hrun)).
  unfold outcome_of, state_of; cbn [fst snd].
  repeat split; try assumption; [congruence | now rewrite H4].
Qed.

(** The execution that [st.rerun()] starts after Play Again: the round
    start, and nothing else. *)
Lemma script_rerun (e : env) (s : session) :
  no_button e ->
  replay_requested s = true ->
  0 < points s ->
  fst (script e s)
  = match start_game e s with
    | (Done _, s1, _) => (Done tt, set_selected_question (question_selector e) s1)
    | (Halt g, s1, _) => (Halt g, s1)
    end.
Proof.
  intros (Hs & Hq & Hsc & Hp) Hr Hpos.
  unfold script. rewrite bind_get_eq, Hr, Hq, Hp, orb_true_r. cbn [when].
  pose proof (start_game_run e s) as Hrun.
  destruct (start_game e s) as [[[[]|g] s1] l] eqn:Hst.
  - assert (Hs1 : game_started s1 = true /\ points s1 = points s).
    { destruct (random_choice _ _); [discriminate|].
      destruct (secret_of_entry _ _); [discriminate|].
      injection Hrun as -> _. now split. }
    destruct Hs1 as [Hg1 Hp1].
    erewrite fst_bind_done by (rewrite Hst; reflexivity).
    erewrite fst_bind_done
      by (rewrite out_of_points_guard_passes; [reflexivity | intros _; lia]).
    rewrite bind_get_eq.
    erewrite fst_bind_done by reflexivity.
    erewrite fst_bind_done by reflexivity.
    erewrite fst_bind_done by (now rewrite leaderboard_block_idle).
    reflexivity.
  - now rewrite (bind_halt _ _ _ _ _ _ Hst).
Qed.

(** C4 (amended): in an execution where Play Again alone is pressed and
    the guard does not stop the script (the game is not flagged as started
    with points at or below 0), Play Again sets points to 100 and the
    count of wrong guesses to 0 when points are at or below 0 or the count
    is at least 5, and keeps both when points are above 0 and the count is
    below 5.  In both cases it clears the secret, asks for a replay and
    re-executes the script, leaving answers, asked questions, hints and
    leaderboard as they are; the execution that follows keeps points and
    count as Play Again left them and, unless the set-up raises, empties
    the answers, the asked questions and the hints and stores a new
    secret.  When the game is flagged as started with points at or below
    0, the guard ends the execution before Play Again is reached: that
    press resets nothing and asks for no replay. *)
Theorem play_again_resets_after_loss_only (e e' : env) (s : session) :
  only_play_again e ->
  replay_requested s = false ->
  ((game_started s = true -> 0 < points s) ->
   outcome_of (script e s) = Halt RerunScript
   /\ (points s <= 0 \/ 5 <= attempts s ->
       points (state_of (script e s)) = 100
       /\ attempts (state_of (script e s)) = 0)
   /\ (0 < points s -> attempts s < 5 ->
       points (state_of (script e s)) = points s
       /\ attempts (state_of (script e s)) = attempts s)
   /\ secret (state_of (script e s)) = PyNone
   /\ replay_requested (state_of (script e s)) = true
   /\ game_started (state_of (script e s)) = false
   /\ answers (state_of (script e s)) = answers s
   /\ asked_questions (state_of (script e s)) = asked_questions s
   /\ previous_hints (state_of (script e s)) = previous_hints s
   /\ leaderboard (state_of (script e s)) = leaderboard s
   /\ (no_button e' ->
       points (state_of (script e' (state_of (script e s))))
       = points (state_of (script e s))
       /\ attempts (state_of (script e' (state_of (script e s))))
          = attempts (state_of (script e s))
       /\ leaderboard (state_of (script e' (state_of (script e s))))
          = leaderboard s
       /\ ((exists x, outcome_of (script e' (state_of (script e s)))
                      = Halt (Raised x))
           \/ (outcome_of (script e' (state_of (script e s))) = Done tt
               /\ answers (state_of (script e' (state_of (script e s)))) = []
               /\ asked_questions (state_of (script e' (state_of (script e s)))) = []
               /\ previous_hints (state_of (script e' (state_of (script e s)))) = []
               /\ game_started (state_of (script e' (state_of (script e s)))) = true
               /\ exists d,
                    secret (state_of (script e' (state_of (script e s))))
                    = Dict d))))
  /\ (game_started s = true -> points s <= 0 ->
      outcome_of (script e s) <> Halt RerunScript
      /\ points (state_of (script e s)) = points s
      /\ attempts (state_of (script e s)) = attempts s
      /\ replay_requested (state_of (script e s)) = false).
Proof.
  intros He Hr. split.
  - intros Hg.
    pose proof (script_play_again_run e s He Hr Hg) as Hrun.
    rewrite play_again_run in Hrun. cbn [fst] in Hrun.
    unfold outcome_of, state_of. rewrite Hrun.
    cbn [fst snd points attempts secret replay_requested game_started
         answers asked_questions previous_hints leaderboard
         set_selected_question].
    change (lost (set_selected_question (question_selector e) s)) with (lost s).
    split; [reflexivity|].
    split; [intros Hl; apply lost_iff in Hl; now rewrite Hl|].
    split.
    { intros Hp Ha.
      assert (lost s = false) as -> by (apply lost_false_iff; lia). now split. }
    do 7 (split; [reflexivity|]).
    intros Hn.
    match goal with
    | |- context [script e' ?s1] => set (s1' := s1)
    end.
    assert (Hpos : 0 < points s1').
    { subst s1'. cbn [points].
      destruct (lost s) eqn:Hl; [lia | now apply lost_false_iff in Hl]. }
    pose proof (script_rerun e' s1' Hn eq_refl Hpos) as Hre.
    pose proof (start_game_run e' s1') as Hst.
    destruct (start_game e' s1') as [[r s2] l].
    destruct (random_choice _ _) as [x|entry].
    { injection Hst as -> -> _. rewrite Hre. cbn.
      repeat split. left. now exists x. }
    destruct (secret_of_entry e' entry) as [x|d].
    { injection Hst as -> -> _. rewrite Hre. cbn.
      repeat split. left. now exists x. }
    injection Hst as -> -> _. rewrite Hre. cbn.
    repeat split. right. repeat split. now exists d.
  - intros Hg Hp. destruct He as (Hs & _).
    destruct (script_play_again_stopped e s Hs Hr Hg Hp) as (H1 & H2 & H3 & _ & H5).
    now repeat split.
Qed.

Lemma play_again_resets_witness :
  outcome_of (script Sample.press_play_again Cases.lost_on_points)
  = Halt RerunScript
  /\ points (state_of (script Sample.press_play_again Cases.lost_on_points)) = 100
  /\ attempts (state_of (script Sample.press_play_again Cases.lost_on_points)) = 0
  /\ points (state_of (script Sample.press_play_again (Sample.finished 58 2 [])))
     = 58
  /\ attempts (state_of (script Sample.press_play_again (Sample.finished 58 2 [])))
     = 2.
Proof.
  assert (Hp : only_play_again Sample.press_play_again) by (repeat split).
  destruct (play_again_resets_after_loss_only Sample.press_play_again Sample.idle
              Cases.lost_on_points Hp eq_refl) as [Hlost _].
  destruct (play_again_resets_after_loss_only Sample.press_play_again Sample.idle
              (Sample.finished 58 2 []) Hp eq_refl) as [Hwon _].
  destruct Hlost as (Ho & Hreset & _); [intros H; discriminate H|].
  destruct Hwon as (_ & _ & Hkeep & _); [intros H; discriminate H|].
  destruct Hreset as [H1 H2]; [left; cbn; lia|].
  destruct Hkeep as [H3 H4]; [cbn; lia | cbn; lia |].
  repeat split; assumption.
Defined.

(** C4, as stated, fails.  The store [Cases.no_points_left] is reachable by
    single presses: a round on France whose points the last question
    brought to 0, the game still flagged as started.  Play Again is
    pressed: the guard shows the out-of-points notice and stops the
    script, so the points stay at 0 and no replay is asked for.  Only a
    second press resets them to 100. *)
Lemma play_again_stopped_by_guard :
  reachable Cases.no_points_left
  /\ game_started Cases.no_points_left = true
  /\ points Cases.no_points_left = 0
  /\ attempts Cases.no_points_left = 0
  /\ script Sample.press_play_again Cases.no_points_left
     = (Halt StopScript, set_game_started false Cases.no_points_left,
        [OutOfPoints "France"])
  /\ points (state_of (script Sample.press_play_again Cases.no_points_left)) = 0
  /\ replay_requested
       (state_of (script Sample.press_play_again Cases.no_points_left)) = false
  /\ points (state_of
       (script Sample.press_play_again
          (state_of (script Sample.press_play_again Cases.no_points_left))))
     = 100.
Proof.
  split; [apply reach_run, run_all_reachable, reach_init|].
  repeat split; vm_compute; reflexivity.
Qed.

(** * Further properties of the script *)

(** ** Eligibility *)

(** X1: every record of the catalog is eligible for exactly one
    difficulty: it is kept by the filter of one difficulty and dropped by
    the filters of the other two. *)
Theorem each_record_in_one_bucket (raw : list Entry.t) (c : Entry.t) :
  In c raw ->
  exists d,
    In c (get_filtered_country_by_difficulty raw d)
    /\ forall d', In c (get_filtered_country_by_difficulty raw d') -> d' = d.
Proof.
  intros Hin.
  assert (Hiff : forall d, In c (get_filtered_country_by_difficulty raw d)
                           <-> classify_population (Entry.get (Entry.population c) 0)
                               = target d).
  { intros d. unfold get_filtered_country_by_difficulty.
    rewrite filter_In, String.eqb_eq. tauto. }
  set (pop := Entry.get (Entry.population c) 0) in *.
  destruct (Z.lt_ge_cases pop 1000000) as [H1|H1];
    [exists hard | destruct (Z.lt_ge_cases pop 30000000) as [H2|H2];
                   [exists medium | exists easy]];
    (split; [apply Hiff, classify_population_bucket; lia|]);
    intros d' Hd'; apply Hiff, classify_population_bucket in Hd';
    destruct d'; try reflexivity; lia.
Qed.

Lemma each_record_in_one_bucket_witness :
  exists d,
    In Sample.chile (get_filtered_country_by_difficulty Sample.catalog d)
    /\ forall d', In Sample.chile (get_filtered_country_by_difficulty Sample.catalog d')
                  -> d' = d.
Proof.
  apply (each_record_in_one_bucket Sample.catalog Sample.chile).
  simpl. right. left. reflexivity.
Defined.

(** ** The dict of the secret *)

Lemma population_label (pop : Z) :
  In (classify_population pop) ["small"; "medium"; "large"].
Proof.
  unfold classify_population.
  destruct (_ <? 1000000); [now left|].
  destruct (_ <? 30000000); [right; now left | right; right; now left].
Qed.

(** X2: building the secret from a catalog record fails in three cases
    only: the record has no name ([KeyError]); it has a name and a capital
    list that is empty ([IndexError]); or, name and capital being there,
    the reply of the content generator parsed to a value that is not an
    object ([TypeError], raised where the reply is spread into the dict).
    A failure of the call or of the parsing is not among them: it leaves
    the three empty lists.  A dict that is built has the reply's value
    under every key of the set-up that the reply has too, and the record's
    value otherwise: it carries the name of the record and one of the
    three population labels when the reply has no name and no population
    of its own, and in any case the reply's food, landmark and festival. *)
Theorem secret_of_entry_failures (e : env) (entry : Entry.t) :
  match secret_of_entry e entry with
  | inl x =>
      (Entry.name_common entry = None /\ x = KeyError)
      \/ ((exists n, Entry.name_common entry = Some n)
          /\ Entry.capital entry = Some [] /\ x = IndexError)
      \/ (exists n,
            Entry.name_common entry = Some n
            /\ Entry.capital entry <> Some []
            /\ ai_profile e n = Some Reply.NotObject
            /\ x = TypeError)
  | inr d =>
      exists n o,
        Entry.name_common entry = Some n
        /\ Entry.capital entry <> Some []
        /\ generate_country_info_with_ai e n = Reply.Object o
        /\ (ai_profile e n = None -> o = Reply.fallback)
        /\ d = {| Secret.name := Reply.over (Reply.name o) n;
                  Secret.region :=
                    Reply.over (Reply.region o)
                      (Entry.get (Entry.region entry) "Unknown");
                  Secret.population :=
                    Reply.over (Reply.population o)
                      (classify_population (Entry.get (Entry.population entry) 0));
                  Secret.capital :=
                    Reply.over (Reply.capital o)
                      (match Entry.capital entry with
                       | Some (c :: _) => c
                       | _ => "Unknown"
                       end);
                  Secret.coastline :=
                    Reply.over (Reply.coastline o)
                      (negb (Entry.get (Entry.landlocked entry) true));
                  Secret.neighbors :=
                    Reply.over (Reply.neighbors o)
                      (Z.of_nat (List.length (Entry.get (Entry.borders entry) [])));
                  Secret.un :=
                    Reply.over (Reply.un o) (Entry.get (Entry.unMember entry) false);
                  Secret.language :=
                    Reply.over (Reply.language o)
                      (match Entry.languages entry with
                       | Some ((_, v) :: _) => v
                       | _ => "Unknown"
                       end);
                  Secret.fifa :=
                    Reply.over (Reply.fifa o) (Entry.get (Entry.fifa entry) "Unknown");
                  Secret.cca2 :=
                    Reply.over (Reply.cca2 o) (Entry.get (Entry.cca2 entry) "XX");
                  Secret.culture :=
                    Culture.mk (Reply.food o) (Reply.landmark o) (Reply.festival o) |}
        /\ (Reply.name o = None -> Secret.name d = n)
        /\ (Reply.population o = None ->
            In (Secret.population d) ["small"; "medium"; "large"])
  end.
Proof.
  unfold secret_of_entry, generate_country_info_with_ai.
  destruct (Entry.name_common entry) as [n|]; cbn; [|now left].
  assert (Hcap : forall c r, Some (c :: r) <> Some (@nil string))
    by (intros; discriminate).
  assert (Hnone : @None (list string) <> Some []) by discriminate.
  destruct (Entry.capital entry) as [[|c r]|]; cbn;
    [right; left; repeat split; now exists n | |];
    (destruct (ai_profile e n) as [[|o]|] eqn:Hp;
     [ right; right; exists n; repeat split; auto
     | exists n, o; rewrite Hp; cbn;
       repeat split; auto; try discriminate;
       try (intros ->; cbn; auto);
       intros; exact (population_label _)
     | exists n, Reply.fallback; rewrite Hp; cbn;
       repeat split; auto; intros; exact (population_label _) ]).
Qed.

(** The reply is spread last: a reply that is not an object ends the round
    start on [TypeError], with nothing stored; the keys of a reply that is
    one replace those of the record. *)
Example reply_is_spread_last :
  script (Cases.start_with_reply Reply.NotObject) init_session
  = (Halt (Raised TypeError), init_session, [])
  /\ secret_of_entry
       (Cases.start_with_reply
          (Reply.Object
             {| Reply.name := Some "Atlantis"; Reply.region := None;
                Reply.population := Some "tiny"; Reply.capital := None;
                Reply.coastline := None; Reply.neighbors := None;
                Reply.un := None; Reply.language := None; Reply.fifa := None;
                Reply.cca2 := None; Reply.food := Some (JStr "fish");
                Reply.landmark := None; Reply.festival := Some JNull |}))
       Sample.france
     = inr {| Secret.name := "Atlantis"; Secret.region := "Europe";
              Secret.population := "tiny"; Secret.capital := "Paris";
              Secret.coastline := true; Secret.neighbors := 8;
              Secret.un := true; Secret.language := "French";
              Secret.fifa := "FRA"; Secret.cca2 := "FR";
              Secret.culture :=
                Culture.mk (Some (JStr "fish")) None (Some JNull) |}.
Proof. split; reflexivity. Qed.

(** X3: when the round start completes, the population label stored in
    the secret is the bucket of the difficulty selected in that execution,
    unless the reply of the content generator has a population key of its
    own: the reply is spread last, and its value is then stored instead.
    Either way the stored label is what the population question answers. *)
Theorem started_secret_matches_difficulty (e : env) (s : session) :
  match start_game e s with
  | (Done _, s', _) =>
      exists entry n o d,
        In entry (get_filtered_country_by_difficulty (raw_data e) (difficulty e))
        /\ Entry.name_common entry = Some n
        /\ generate_country_info_with_ai e n = Reply.Object o
        /\ secret s' = Dict d
        /\ Secret.population d
           = Reply.over (Reply.population o) (target (difficulty e))
        /\ (Reply.population o = None ->
            Secret.population d = target (difficulty e))
        /\ answer_to "Is its population small, medium, or large?" d
           = Some (Secret.population d)
  | (Halt _, _, _) => True
  end.
Proof.
  rewrite start_game_run.
  destruct (random_choice _ _) as [x|entry] eqn:Hc; [exact I|].
  destruct (secret_of_entry e entry) as [x|d] eqn:Hd; [exact I|].
  apply random_choice_in in Hc. pose proof Hc as Hin.
  unfold get_filtered_country_by_difficulty in Hc.
  apply filter_In in Hc. destruct Hc as [_ Hb]. apply String.eqb_eq in Hb.
  unfold secret_of_entry in Hd.
  destruct (Entry.name_common entry) as [n|] eqn:Hn; [|discriminate]. cbn in Hd.
  destruct (first_item _) as [|c]; [discriminate|].
  destruct (generate_country_info_with_ai e n) as [|o] eqn:Ho; [discriminate|].
  injection Hd as <-.
  exists entry, n, o. eexists. split; [exact Hin|].
  split; [exact Hn|]. split; [exact Ho|]. split; [reflexivity|].
  cbn [Secret.population]. rewrite Hb.
  split; [reflexivity|]. split; [now intros ->|]. reflexivity.
Qed.

(** ** Keeping a property through the blocks *)

Lemma preserves_get_weak (P : session -> Prop) {B : Type} (k : session -> M B) :
  (forall s0, preserves P (k s0)) -> preserves P (bind get k).
Proof.
  intros H. apply preserves_get_bind. intros s Hs. now apply H.
Qed.

Lemma preserves_reads (P : session -> Prop) {A : Type} (m : M A) :
  reads_only m -> preserves P m.
Proof. apply reads_only_preserves. Qed.

Create HintDb reads discriminated.
#[local] Hint Resolve reads_only_get reads_only_ret reads_only_emit
  reads_only_halt reads_only_lift reads_only_read_secret
  reads_only_secret_item reads_only_secret_get reads_only_show_answers : reads.

(** Descends through a block; [leaf] closes the goals [P (f s)] left by the
    assignments, from the hypothesis [P s]. *)
Ltac keeps leaf :=
  repeat first
    [ apply preserves_reads; solve [unfold raise; auto with reads]
    | apply preserves_bind; [|intros ?]
    | apply preserves_get_weak; intros ?
    | apply preserves_when
    | apply preserves_modify; intros ? ?; solve [leaf]
    | match goal with
      | |- preserves _ (if ?b then _ else _) => destruct b
      | |- preserves _ (match ?x with _ => _ end) => destruct x
      end ].

Section Charges.

Variable p : Z.

(** Points at most [p]. *)
Let capped (s : session) : Prop := points s <= p.

Lemma start_game_capped (e : env) : preserves capped (start_game e).
Proof.
  unfold start_game, setup_new_country.
  keeps ltac:(unfold capped in *; cbn; assumption).
Qed.

Lemma out_of_points_guard_capped : preserves capped out_of_points_guard.
Proof.
  unfold out_of_points_guard.
  keeps ltac:(unfold capped in *; cbn; assumption).
Qed.

Lemma submit_question_capped (e : env) (avail : list string) :
  preserves capped (submit_question e avail).
Proof.
  unfold submit_question, ask_question, submit_guess, correct_guess,
    wrong_guess, request_hint.
  keeps ltac:(unfold capped in *; cbn; lia || assumption).
Qed.

Lemma leaderboard_block_capped (e : env) : preserves capped (leaderboard_block e).
Proof.
  unfold leaderboard_block, submit_score.
  keeps ltac:(unfold capped in *; cbn; assumption).
Qed.

Lemma script_capped (e : env) :
  btn_play_again e = false -> preserves capped (script e).
Proof.
  intros Hp. unfold script. rewrite Hp.
  apply preserves_get_weak. intros s0.
  apply preserves_bind; [apply preserves_when, start_game_capped|]. intros _.
  apply preserves_bind; [apply out_of_points_guard_capped|]. intros _.
  apply preserves_get_weak. intros s1.
  apply preserves_bind;
    [apply preserves_modify; intros s Hs; exact Hs|]. intros _.
  apply preserves_bind; [apply preserves_when, submit_question_capped|]. intros _.
  apply preserves_bind; [apply leaderboard_block_capped|]. intros _.
  apply preserves_reads, reads_only_ret.
Qed.

End Charges.

(** X4: points never go up in an execution in which Play Again is not
    pressed, whatever else is pressed and however the execution ends. *)
Theorem points_never_go_up (e : env) (s : session) :
  btn_play_again e = false ->
  points (state_of (script e s)) <= points s.
Proof.
  intros Hp. apply (script_capped (points s) e Hp s). apply Z.le_refl.
Qed.

Lemma points_never_go_up_witness :
  points (state_of (script (Sample.press_question "Is it in Europe?")
                      (Sample.playing 100 0 [])))
  <= 100.
Proof.
  apply (points_never_go_up (Sample.press_question "Is it in Europe?")
           (Sample.playing 100 0 [])).
  reflexivity.
Defined.

Section BoardKept.

Variable lb : list (string * Z).

Let board_is (s : session) : Prop := leaderboard s = lb.

Lemma script_board_is (e : env) :
  btn_submit_score e = false \/ player_name e = "" ->
  preserves board_is (script e).
Proof.
  intros Hno.
  assert (Hskip : btn_submit_score e && PyStr.truthy (player_name e) = false).
  { destruct Hno as [-> | ->]; [reflexivity | apply andb_false_r]. }
  unfold script, leaderboard_block. rewrite Hskip.
  unfold start_game, setup_new_country, out_of_points_guard, submit_question,
    ask_question, submit_guess, correct_guess, wrong_guess, request_hint,
    play_again.
  keeps ltac:(unfold board_is in *; cbn; assumption).
Qed.

End BoardKept.

(** X5: the leaderboard is changed by nothing but a score submission: an
    execution in which Submit Score is not pressed, or the name is empty,
    leaves it as it was, whatever else is pressed (round start, questions,
    guesses and Play Again included) and however the execution ends. *)
Theorem board_changes_only_by_submission (e : env) (s : session) :
  btn_submit_score e = false \/ player_name e = "" ->
  leaderboard (state_of (script e s)) = leaderboard s.
Proof.
  intros H. now apply (script_board_is (leaderboard s) e H s).
Qed.

Lemma board_changes_only_by_submission_witness :
  leaderboard (state_of (script Sample.press_play_again Sample.after_score))
  = leaderboard Sample.after_score.
Proof.
  apply (board_changes_only_by_submission Sample.press_play_again
           Sample.after_score).
  left. reflexivity.
Defined.

Section NoCharge.

Variables p a : Z.

Let charged (s : session) : Prop := points s = p /\ attempts s = a.

Lemma script_not_charged (e : env) :
  btn_submit_question e = false -> btn_play_again e = false ->
  preserves charged (script e).
Proof.
  intros Hq Hp. unfold script. rewrite Hq, Hp.
  unfold start_game, setup_new_country, out_of_points_guard,
    leaderboard_block, submit_score.
  keeps ltac:(unfold charged in *; cbn; assumption).
Qed.

End NoCharge.

(** X6: the guess input and its button stand inside the block of Submit
    Question, so an execution in which Submit Question is not pressed
    charges nothing: with Play Again not pressed either, points and the
    count of wrong guesses are unchanged even when Submit Guess is pressed
    with a wrong guess. *)
Theorem no_charge_without_submit_question (e : env) (s : session) :
  btn_submit_question e = false ->
  btn_play_again e = false ->
  points (state_of (script e s)) = points s
  /\ attempts (state_of (script e s)) = attempts s.
Proof.
  intros Hq Hp.
  now apply (script_not_charged (points s) (attempts s) e Hq Hp s).
Qed.

(** ** Bounds kept by every execution *)

Lemma bounds_init : bounds init_session.
Proof.
  unfold bounds; cbn.
  split; [lia|]. split; [lia|]. split; [constructor|].
  split; [intros q Hq; destruct Hq | discriminate].
Qed.

Lemma start_game_bounds (e : env) : preserves bounds (start_game e).
Proof.
  intros s (Hp & Ha & Hn & Hi & Hg). rewrite start_game_run.
  destruct (random_choice _ _) as [x|entry];
    [unfold state_of; cbn; now repeat split|].
  destruct (secret_of_entry e entry) as [x|d];
    [unfold state_of; cbn; now repeat split|].
  unfold state_of, bounds, holds_secret; cbn.
  split; [exact Hp|]. split; [exact Ha|]. split; [constructor|].
  split; [intros q Hq; destruct Hq | intros _; now exists d].
Qed.

Lemma play_again_bounds : preserves bounds play_again.
Proof.
  intros s (Hp & Ha & Hn & Hi & Hg). rewrite play_again_run.
  unfold state_of, bounds; cbn.
  repeat split; try assumption; try discriminate;
    destruct (lost s); lia.
Qed.

Ltac bounds_leaf :=
  idtac;
  match goal with
  | H : bounds _ |- _ =>
      destruct H as (? & ? & ? & ? & ?); unfold bounds, holds_secret in *; cbn;
      repeat split; try assumption; try lia; try discriminate
  end.

Lemma out_of_points_guard_bounds : preserves bounds out_of_points_guard.
Proof. unfold out_of_points_guard. keeps bounds_leaf. Qed.

Lemma submit_guess_bounds (e : env) : preserves bounds (submit_guess e).
Proof.
  unfold submit_guess, correct_guess, wrong_guess, request_hint.
  keeps bounds_leaf.
Qed.

Lemma leaderboard_block_bounds (e : env) : preserves bounds (leaderboard_block e).
Proof. unfold leaderboard_block, submit_score. keeps bounds_leaf. Qed.

(** The question block, on the list of questions the script offers. *)
Lemma ask_question_bounds (s : session) :
  bounds s ->
  bounds (state_of (ask_question (available (asked_questions s)) s)).
Proof.
  intros Hb. unfold ask_question. rewrite state_of_bind.
  cbn [get outcome_of state_of fst snd].
  destruct (selected_question s) as [q|]; [|exact Hb].
  destruct (PyStr.mem q (available (asked_questions s))) eqn:Hm; [|exact Hb].
  apply available_iff in Hm. destruct Hm as [Hk Hn].
  rewrite state_of_bind. destruct (lookup q q_map) as [x|f]; [exact Hb|].
  cbn [lift ret outcome_of state_of fst snd].
  rewrite state_of_bind, reads_only_read_secret.
  destruct (outcome_of (read_secret s)) as [c|]; [|exact Hb].
  rewrite state_of_bind. destruct (f c) as [x|a]; [exact Hb|].
  destruct Hb as (Hp & Ha & Hnd & Hi & Hg).
  unfold state_of, bounds, holds_secret; cbn.
  repeat split; try assumption; try lia.
  - now apply NoDup_snoc.
  - intros x Hx. apply in_app_or in Hx. destruct Hx as [Hx|[<-|[]]];
      [now apply Hi | exact Hk].
Qed.

Lemma script_bounds (e : env) : preserves bounds (script e).
Proof.
  unfold script.
  apply preserves_get_weak. intros s0.
  apply preserves_bind; [apply preserves_when, start_game_bounds|]. intros _.
  apply preserves_bind; [apply out_of_points_guard_bounds|]. intros _.
  apply preserves_get_bind. intros s Hs.
  rewrite state_of_bind. cbn [modify outcome_of state_of fst snd].
  set (s1 := set_selected_question (question_selector e) s).
  assert (Hs1 : bounds s1) by exact Hs.
  rewrite state_of_bind.
  assert (Hsq : bounds (state_of
            (when (btn_submit_question e)
               (submit_question e (available (asked_questions s))) s1))).
  { destruct (btn_submit_question e); [|exact Hs1].
    cbn [when]. unfold submit_question.
    change (asked_questions s) with (asked_questions s1).
    rewrite state_of_bind.
    pose proof (ask_question_bounds s1 Hs1) as Hask.
    destruct (outcome_of _); [|exact Hask].
    apply preserves_at; [exact Hask|].
    apply preserves_get_weak. intros s3.
    apply preserves_bind; [apply preserves_reads, reads_only_show_answers|].
    intros _.
    apply preserves_bind; [apply preserves_when, submit_guess_bounds|]. intros _.
    apply preserves_get_weak. intros s4. apply preserves_reads, reads_only_emit. }
  destruct (outcome_of _); [|exact Hsq].
  apply preserves_at; [exact Hsq|].
  apply preserves_bind; [apply leaderboard_block_bounds|]. intros _.
  apply preserves_when, play_again_bounds.
Qed.

Lemma reachable_bounds (s : session) : reachable s -> bounds s.
Proof.
  induction 1 as [|e s _ IH]; [apply bounds_init | now apply script_bounds].
Qed.

Lemma questions_distinct : NoDup questions.
Proof.
  unfold questions; cbn.
  repeat (constructor; [cbn; intuition discriminate|]). constructor.
Qed.

(** The questions still on offer are the ones not asked. *)
Lemma available_count (asked : list string) :
  NoDup asked -> incl asked questions ->
  (List.length (available asked) + List.length asked = 8)%nat.
Proof.
  intros Hn Hi. unfold available. fold questions.
  pose proof (filter_length (fun q => PyStr.mem q asked) questions) as Hlen.
  assert (Hsame : Permutation asked (filter (fun q => PyStr.mem q asked) questions)).
  { apply NoDup_Permutation; [exact Hn | apply NoDup_filter, questions_distinct|].
    intros q. rewrite filter_In, mem_true_in. split; [|tauto].
    intros Hq. split; [now apply Hi | exact Hq]. }
  rewrite (Permutation_length Hsame).
  change (List.length questions) with 8%nat in Hlen. lia.
Qed.

(** X7: in every reachable state of the store no question is recorded
    twice as asked, every asked question is a question of the catalog, so at
    most 8 are asked, and the questions offered and the questions asked
    add up to the 8 of the catalog. *)
Theorem asked_questions_within_catalog (s : session) :
  reachable s ->
  NoDup (asked_questions s)
  /\ incl (asked_questions s) (map fst q_map)
  /\ (List.length (asked_questions s) <= 8)%nat
  /\ (List.length (available (asked_questions s))
      + List.length (asked_questions s) = 8)%nat.
Proof.
  intros Hr. destruct (reachable_bounds s Hr) as (_ & _ & Hn & Hi & _).
  split; [exact Hn|]. split; [exact Hi|].
  pose proof (available_count _ Hn Hi). split; [lia | assumption].
Qed.

Lemma asked_questions_within_catalog_witness :
  (List.length (available (asked_questions Sample.after_two_questions))
   + List.length (asked_questions Sample.after_two_questions) = 8)%nat.
Proof.
  apply (asked_questions_within_catalog Sample.after_two_questions).
  unfold Sample.after_two_questions.
  apply reach_run, reach_run, reach_run, reach_init.
Defined.

(** X8: in every reachable state of the store the points are at most the
    100 a session starts with, and the count of wrong guesses is not
    negative. *)
Theorem points_at_most_100 (s : session) :
  reachable s -> points s <= 100 /\ 0 <= attempts s.
Proof.
  intros Hr. destruct (reachable_bounds s Hr) as (Hp & Ha & _).
  now split.
Qed.

Lemma points_at_most_100_witness :
  points Sample.low_on_points <= 100 /\ 0 <= attempts Sample.low_on_points.
Proof.
  apply (points_at_most_100 Sample.low_on_points).
  apply run_all_reachable, reach_init.
Defined.

(** X9: in every reachable state of the store a game that is marked as
    started has the dict of its secret country in the store. *)
Theorem started_game_has_secret (s : session) :
  reachable s -> game_started s = true -> exists d, secret s = Dict d.
Proof.
  intros Hr Hg. destruct (reachable_bounds s Hr) as (_ & _ & _ & _ & H).
  exact (H Hg).
Qed.

Lemma started_game_has_secret_witness :
  exists d, secret Sample.low_on_points = Dict d.
Proof.
  apply (started_game_has_secret Sample.low_on_points).
  - apply run_all_reachable, reach_init.
  - vm_compute. reflexivity.
Defined.

(** ** How executions end *)

Lemma outcome_of_bind {A B : Type} (m : M A) (k : A -> M B) (s : session) :
  outcome_of (bind m k s)
  = match outcome_of (m s) with
    | Done a => outcome_of (k a (state_of (m s)))
    | Halt g => Halt g
    end.
Proof.
  unfold bind, outcome_of, state_of.
  destruct (m s) as [[[a|g] s1] l1]; cbn; [|reflexivity].
  now destruct (k a s1) as [[r s2] l2].
Qed.

Section EndsWell.

Variable I : session -> Prop.
Variable H : signal -> session -> Prop.

Lemma ends_well_bind {A B : Type} (m : M A) (k : A -> M B) :
  ends_well I H m -> (forall a, ends_well I H (k a)) -> ends_well I H (bind m k).
Proof.
  intros Hm Hk s Hs. specialize (Hm s Hs).
  rewrite outcome_of_bind, state_of_bind.
  destruct (outcome_of (m s)) as [a|g]; [|exact Hm].
  now apply Hk.
Qed.

Lemma ends_well_get {B : Type} (k : session -> M B) :
  (forall s0, ends_well I H (k s0)) -> ends_well I H (bind get k).
Proof.
  intros Hk s Hs. rewrite outcome_of_bind, state_of_bind. cbn.
  now apply Hk.
Qed.

Lemma ends_well_ret {A : Type} (a : A) : ends_well I H (ret a).
Proof. now intros s Hs. Qed.

Lemma ends_well_emit (m : message) : ends_well I H (emit m).
Proof. now intros s Hs. Qed.

Lemma ends_well_modify (f : session -> session) :
  (forall s, I s -> I (f s)) -> ends_well I H (modify f).
Proof. intros Hf s Hs. now apply Hf. Qed.

Lemma ends_well_halt {A : Type} (g : signal) :
  (forall s, I s -> H g s) -> ends_well I H (@halt A g).
Proof. intros Hg s Hs. now apply Hg. Qed.

Lemma ends_well_when (b : bool) (m : M unit) :
  ends_well I H m -> ends_well I H (when b m).
Proof. intros Hm. destruct b; [exact Hm | apply ends_well_ret]. Qed.

(** A block that reads only and halts by exceptions only. *)
Lemma ends_well_reads {A : Type} (m : M A) :
  reads_only m -> only_raises m ->
  (forall s x, I s -> H (Raised x) s) ->
  ends_well I H m.
Proof.
  intros Hr Ho Hx s Hs. rewrite Hr.
  destruct (outcome_of (m s)) as [a|g] eqn:Hout; [exact Hs|].
  destruct (Ho s g Hout) as [x ->]. now apply Hx.
Qed.

End EndsWell.

Lemma only_raises_bind {A B : Type} (m : M A) (k : A -> M B) :
  only_raises m -> (forall a, only_raises (k a)) -> only_raises (bind m k).
Proof.
  intros Hm Hk s g. rewrite outcome_of_bind.
  destruct (outcome_of (m s)) as [a|g'] eqn:Hout.
  - apply Hk.
  - intros [= <-]. now apply (Hm s).
Qed.

Lemma only_raises_done {A : Type} (m : M A) :
  (forall s, exists a, outcome_of (m s) = Done a) -> only_raises m.
Proof.
  intros Hd s g Hg. destruct (Hd s) as [a Ha]. congruence.
Qed.

Lemma only_raises_get : only_raises get.
Proof. apply only_raises_done. intros s. now exists s. Qed.

Lemma only_raises_ret {A : Type} (a : A) : only_raises (ret a).
Proof. apply only_raises_done. intros s. now exists a. Qed.

Lemma only_raises_emit (m : message) : only_raises (emit m).
Proof. apply only_raises_done. intros s. now exists tt. Qed.

Lemma only_raises_raise {A : Type} (x : exn) : only_raises (@raise A x).
Proof. intros s g [= <-]. now exists x. Qed.

Lemma only_raises_lift {A : Type} (r : exn + A) : only_raises (lift r).
Proof. destruct r; [apply only_raises_raise | apply only_raises_ret]. Qed.

Lemma only_raises_read_secret : only_raises read_secret.
Proof.
  apply only_raises_bind; [apply only_raises_get|]. intros s.
  destruct (secret s);
    [apply only_raises_raise | apply only_raises_ret | apply only_raises_ret].
Qed.

Lemma only_raises_secret_item {A : Type} (key : Secret.t -> A) :
  only_raises (secret_item key).
Proof.
  apply only_raises_bind; [apply only_raises_read_secret|]. intros c.
  apply only_raises_bind; [apply only_raises_lift|]. intros d.
  apply only_raises_ret.
Qed.

Lemma only_raises_secret_get {A : Type} (key : Secret.t -> A) :
  only_raises (secret_get key).
Proof.
  apply only_raises_bind; [apply only_raises_read_secret|].
  intros [d|]; [apply only_raises_ret | apply only_raises_raise].
Qed.

Lemma only_raises_show_answers (l : list (string * string)) :
  only_raises (show_answers l).
Proof.
  induction l as [|[q a] r IH]; [apply only_raises_ret|].
  cbn [show_answers].
  apply only_raises_bind; [apply only_raises_emit|]. intros _.
  apply only_raises_bind; [|intros _; exact IH].
  destruct (q =? "What is the flag?")%string; [|apply only_raises_ret].
  apply only_raises_bind; [apply only_raises_secret_get|].
  intros code. apply only_raises_emit.
Qed.

(** ** No exception while a secret is in the store *)

Lemma secret_item_safe {A : Type} (key : Secret.t -> A) :
  ends_well holds_profile not_raised (secret_item key).
Proof.
  intros s (d & Hd & Hc). rewrite (secret_item_dict key s d Hd). cbn.
  now exists d.
Qed.

Lemma secret_get_safe {A : Type} (key : Secret.t -> A) :
  ends_well holds_profile not_raised (secret_get key).
Proof.
  intros s (d & Hd & Hc). rewrite (secret_get_dict key s d Hd). cbn.
  now exists d.
Qed.


(** Descends through a block as [keeps] does, for [ends_well]. *)
Ltac ends leaf :=
  repeat first
    [ apply secret_item_safe
    | apply secret_get_safe
    | apply ends_well_get; intros ?
    | apply ends_well_bind; [|intros ?]
    | apply ends_well_when
    | apply ends_well_ret
    | apply ends_well_emit
    | apply ends_well_modify; intros ? ?; solve [leaf]
    | apply ends_well_halt; intros ? ?; solve [leaf]
    | match goal with
      | |- ends_well _ _ (if ?b then _ else _) => destruct b
      | |- ends_well _ _ (match ?x with _ => _ end) => destruct x
      end ].











Lemma no_charge_without_submit_question_witness :
  points (state_of (script (Cases.guess_only "Spain") Sample.low_on_points)) = 20
  /\ attempts (state_of (script (Cases.guess_only "Spain") Sample.low_on_points)) = 3.
Proof.
  apply (no_charge_without_submit_question (Cases.guess_only "Spain")
           Sample.low_on_points); reflexivity.
Defined.

(** ** Running out of points *)

Lemma out_of_points_guard_stops (s : session) (d : Secret.t) :
  game_started s = true -> points s <= 0 -> secret s = Dict d ->
  out_of_points_guard s
  = (Halt StopScript, set_game_started false s, [OutOfPoints (Secret.name d)]).
Proof.
  intros Hg Hp Hd. apply Z.leb_le in Hp.
  unfold out_of_points_guard. unfold_monad.
  repeat (progress (cbn; rewrite ?Hg, ?Hp, ?Hd)). reflexivity.
Qed.

(** X11: in a round that is started with no points left, an execution
    that does not start a round stops at the guard: it shows the
    out-of-points notice with the name of the country, marks the game as not
    started and processes nothing else, whatever is pressed (a question, a
    guess, a score, Play Again). *)
Theorem out_of_points_stops_execution (e : env) (s : session) (d : Secret.t) :
  btn_start e = false ->
  replay_requested s = false ->
  game_started s = true ->
  points s <= 0 ->
  secret s = Dict d ->
  script e s
  = (Halt StopScript, set_game_started false s, [OutOfPoints (Secret.name d)]).
Proof.
  intros Hstart Hreplay Hg Hp Hd.
  unfold script. rewrite bind_get_eq, Hstart, Hreplay. cbn [orb when].
  apply (bind_done _ _ s s _ tt _ [] _ eq_refl).
  apply bind_halt. now apply out_of_points_guard_stops.
Qed.

Lemma out_of_points_stops_execution_witness :
  script Sample.press_play_again Cases.out_of_points
  = (Halt StopScript, set_game_started false Cases.out_of_points,
     [OutOfPoints "France"]).
Proof.
  apply (out_of_points_stops_execution Sample.press_play_again
           Cases.out_of_points Sample.france_secret).
  - reflexivity.
  - reflexivity.
  - reflexivity.
  - vm_compute. discriminate.
  - reflexivity.
Defined.

(** X12: a round started while the points are at or below 0 (Start Game
    after a round lost on points, without Play Again) is over in the same
    execution: the country is loaded, the guard shows the out-of-points
    notice with its name, and the game is marked as not started. *)
Theorem start_without_points_stops (e : env) (s s1 : session) (l : list message) :
  btn_start e || replay_requested s = true ->
  points s <= 0 ->
  start_game e s = (Done tt, s1, l) ->
  exists d,
    secret s1 = Dict d
    /\ script e s
       = (Halt StopScript, set_game_started false s1,
          l ++ [OutOfPoints (Secret.name d)]).
Proof.
  intros Hc Hp Hs.
  pose proof (start_game_run e s) as Hrun. rewrite Hs in Hrun.
  destruct (random_choice _ _) as [x|entry]; [discriminate|].
  destruct (secret_of_entry e entry) as [x|d]; [discriminate|].
  injection Hrun as -> ->.
  exists d. split; [reflexivity|].
  unfold script. rewrite bind_get_eq, Hc. cbn [when].
  eapply bind_done; [exact Hs|].
  apply bind_halt. now apply out_of_points_guard_stops.
Qed.

Lemma start_without_points_stops_witness :
  exists d,
    secret (state_of (start_game (Sample.press_start Sample.catalog)
                        Cases.lost_on_points)) = Dict d
    /\ script (Sample.press_start Sample.catalog) Cases.lost_on_points
       = (Halt StopScript,
          set_game_started false
            (state_of (start_game (Sample.press_start Sample.catalog)
                         Cases.lost_on_points)),
          [NewCountryLoaded] ++ [OutOfPoints (Secret.name d)]).
Proof.
  apply (start_without_points_stops (Sample.press_start Sample.catalog)
           Cases.lost_on_points).
  - reflexivity.
  - vm_compute. discriminate.
  - reflexivity.
Defined.

(** ** Wrong guesses *)

(** X13: a wrong guess made when at least 4 wrong guesses are counted
    ends the round whatever the points left: the count and the points are
    charged, the game-over notice names the country, the game is marked as
    not started, Play Again will count the round as lost, and no hint is
    requested, so the hints are unchanged. *)
Theorem fifth_wrong_guess_ends_round (e : env) (s : session) (d : Secret.t) :
  secret s = Dict d ->
  PyStr.lower (PyStr.strip (guess e)) <> PyStr.lower (Secret.name d) ->
  4 <= attempts s ->
  game_started (state_of (submit_guess e s)) = false
  /\ lost (state_of (submit_guess e s)) = true
  /\ attempts (state_of (submit_guess e s)) = attempts s + 1
  /\ points (state_of (submit_guess e s)) = points s - 20
  /\ previous_hints (state_of (submit_guess e s)) = previous_hints s
  /\ hint_requests (log_of (submit_guess e s)) = 0%nat
  /\ In (GameOver (Secret.name d)) (log_of (submit_guess e s)).
Proof.
  intros Hd Hne Ha.
  rewrite (submit_guess_run e s d Hd).
  apply String.eqb_neq in Hne. rewrite Hne.
  rewrite (wrong_guess_run e s d Hd). cbv zeta.
  assert (H5 : (attempts s + 1 >=? 5) = true)
    by (rewrite Z.geb_leb; apply Z.leb_le; lia).
  rewrite H5. unfold state_of, log_of, lost, hint_requests.
  destruct (points s - 20 <=? 0) eqn:Hp; cbn; rewrite H5, ?orb_true_r;
    repeat split; auto.
Qed.

Lemma fifth_wrong_guess_ends_round_witness :
  game_started (state_of (submit_guess (Sample.with_guess "Spain" None)
                            (Sample.playing 90 4 []))) = false
  /\ lost (state_of (submit_guess (Sample.with_guess "Spain" None)
                       (Sample.playing 90 4 []))) = true.
Proof.
  destruct (fifth_wrong_guess_ends_round (Sample.with_guess "Spain" None)
              (Sample.playing 90 4 []) Sample.france_secret)
    as (H1 & H2 & _).
  - reflexivity.
  - vm_compute. discriminate.
  - vm_compute. discriminate.
  - split; [exact H1 | exact H2].
Defined.

Lemma lower_empty (s : string) : PyStr.lower s = "" -> s = "".
Proof. destruct s; [reflexivity | discriminate]. Qed.

(** X14: an empty guess, or one made of blanks only, is not set aside:
    unless the name of the secret is itself empty it is a wrong guess, and
    it costs 20 points and one attempt. *)
Theorem blank_guess_is_charged (e : env) (s : session) (d : Secret.t) :
  secret s = Dict d ->
  Secret.name d <> "" ->
  PyStr.strip (guess e) = "" ->
  submit_guess e s = wrong_guess e s
  /\ points (state_of (submit_guess e s)) = points s - 20
  /\ attempts (state_of (submit_guess e s)) = attempts s + 1.
Proof.
  intros Hd Hn Hg.
  assert (Hrun : submit_guess e s = wrong_guess e s).
  { rewrite (submit_guess_run e s d Hd), Hg.
    destruct (String.eqb_spec (PyStr.lower "") (PyStr.lower (Secret.name d)))
      as [E|E]; [|reflexivity].
    exfalso. apply Hn. apply lower_empty. now rewrite <- E. }
  split; [exact Hrun|]. rewrite Hrun.
  destruct (wrong_guess_effect e s d Hd) as (Hp & Ha & _). now split.
Qed.

Lemma blank_guess_is_charged_witness :
  points (state_of (submit_guess (Sample.with_guess "   " None)
                      (Sample.playing 100 0 []))) = 80
  /\ attempts (state_of (submit_guess (Sample.with_guess "   " None)
                           (Sample.playing 100 0 []))) = 1.
Proof.
  destruct (blank_guess_is_charged (Sample.with_guess "   " None)
              (Sample.playing 100 0 []) Sample.france_secret)
    as (_ & H1 & H2).
  - reflexivity.
  - discriminate.
  - reflexivity.
  - split; [exact H1 | exact H2].
Defined.

(** X15: whatever the store and the guess, the guess block leaves the
    hints as they are or appends exactly one hint, which was not among
    them. *)
Theorem guess_adds_at_most_one_hint (e : env) (s : session) :
  previous_hints (state_of (submit_guess e s)) = previous_hints s
  \/ exists h,
       ~ In h (previous_hints s)
       /\ previous_hints (state_of (submit_guess e s)) = previous_hints s ++ [h].
Proof.
  destruct (secret s) as [| |d] eqn:Hd.
  - left. unfold submit_guess. rewrite state_of_bind, reads_only_secret_item.
    unfold secret_item, read_secret. unfold_monad. cbn. rewrite Hd. reflexivity.
  - left. unfold submit_guess. rewrite state_of_bind, reads_only_secret_item.
    unfold secret_item, read_secret. unfold_monad. cbn. rewrite Hd. reflexivity.
  - rewrite (submit_guess_run e s d Hd).
    destruct (_ =? _)%string.
    { left. rewrite (correct_guess_run s d Hd).
      now destruct (summary_error d). }
    destruct (wrong_guess_effect e s d Hd) as (_ & _ & _ & _ & ->).
    destruct (attempts s + 1 >=? 5); [now left|].
    destruct (ai_hint _ _ _ _) as [h|]; [|now left].
    destruct (PyStr.mem h (previous_hints s)) eqn:Hm; [now left|].
    right. exists h. split; [now apply mem_false_not_in | reflexivity].
Qed.

(** ** Before the first round *)

Lemma lookup_defined (q : string) :
  In q questions -> exists f, lookup q q_map = inr f.
Proof.
  intros Hq. destruct (answer_to_defined q Sample.france_secret Hq) as [a Ha].
  unfold answer_to in Ha.
  destruct (lookup q q_map) as [x|f]; [discriminate | now exists f].
Qed.

Lemma ask_question_without_secret (avail : list string) (s : session) (q : string) :
  secret s = Missing ->
  selected_question s = Some q ->
  PyStr.mem q avail = true ->
  In q questions ->
  ask_question avail s = (Halt (Raised AttributeError), s, []).
Proof.
  intros Hd Hsel Hm Hq. destruct (lookup_defined q Hq) as [f Hf].
  unfold ask_question. unfold_monad.
  repeat (progress (cbn -[lookup q_map]; rewrite ?Hsel, ?Hm, ?Hf, ?Hd)).
  reflexivity.
Qed.

(** X16: while no secret was ever stored (no round started yet), a guess
    raises [AttributeError] and leaves the store as it is; and an execution
    in which a question of the catalog is picked and Submit Question is
    pressed ends on [AttributeError] with nothing charged and nothing
    recorded but the selection. *)
Theorem question_before_first_round (e : env) (s : session) :
  secret s = Missing ->
  submit_guess e s = (Halt (Raised AttributeError), s, [])
  /\ forall q,
     (btn_start e = false -> replay_requested s = false ->
      game_started s = false ->
      btn_submit_question e = true -> question_selector e = Some q ->
      In q (map fst q_map) -> ~ In q (asked_questions s) ->
      script e s
      = (Halt (Raised AttributeError), set_selected_question (Some q) s, [])).
Proof.
  intros Hd. split.
  - unfold submit_guess. unfold_monad. cbn. rewrite Hd. reflexivity.
  - intros q Hstart Hreplay Hg Hq Hsel Hk Hn.
    unfold script. rewrite bind_get_eq, Hstart, Hreplay, Hq, Hsel.
    cbn [orb when].
    apply (bind_done _ _ s s _ tt _ [] _ eq_refl).
    apply (bind_done _ _ s s _ tt _ [] []).
    { unfold out_of_points_guard. unfold_monad. cbn. now rewrite Hg. }
    rewrite bind_get_eq.
    apply (bind_done _ _ s (set_selected_question (Some q) s) _ tt _ [] _ eq_refl).
    apply bind_halt. unfold submit_question. apply bind_halt.
    apply (ask_question_without_secret _ _ q); try assumption; try reflexivity.
    now apply available_iff.
Qed.

Lemma question_before_first_round_witness :
  script (Sample.press_question "Is it in Europe?") init_session
  = (Halt (Raised AttributeError),
     set_selected_question (Some "Is it in Europe?") init_session, []).
Proof.
  apply (question_before_first_round (Sample.press_question "Is it in Europe?")
           init_session eq_refl); try reflexivity.
  - simpl. left. reflexivity.
  - simpl. tauto.
Defined.

(** ** A full board *)

Lemma sorted_snoc (x : string * Z) (l : list (string * Z)) :
  StronglySorted score_ge l ->
  Forall (fun y => snd x <= snd y) l ->
  StronglySorted score_ge (l ++ [x]).
Proof.
  induction 1 as [|y r Hr IH Hy]; intros Hall; cbn.
  - repeat constructor.
  - inversion Hall as [|? ? Hxy Hrest]; subst.
    constructor; [now apply IH|].
    apply Forall_app. split; [exact Hy|]. now repeat constructor.
Qed.

(** X17: when the board is in order and holds five entries whose scores
    are all at least the points of a player who is not on it, the
    submission changes nothing: the new entry is sorted last, after the
    entries of equal score, and cut off. *)
Theorem low_score_is_dropped (s : session) (player : string) :
  StronglySorted score_ge (leaderboard s) ->
  List.length (leaderboard s) = 5%nat ->
  ~ In player (map fst (leaderboard s)) ->
  Forall (fun x => points s <= snd x) (leaderboard s) ->
  submit_score player s = (Done tt, s, []).
Proof.
  intros Hsorted Hlen Hno Hall. rewrite submit_score_run.
  unfold updated_board.
  rewrite (proj2 (no_entry_not_in player (leaderboard s)) Hno).
  rewrite sorted_desc_fixpoint by now apply sorted_snoc.
  rewrite firstn_app, (firstn_all2 (leaderboard s)) by lia.
  rewrite Hlen, Nat.sub_diag, firstn_O, app_nil_r.
  destruct s; reflexivity.
Qed.

Lemma low_score_is_dropped_witness :
  submit_score "Gus" Cases.full_board = (Done tt, Cases.full_board, []).
Proof.
  apply (low_score_is_dropped Cases.full_board "Gus").
  - repeat (constructor; [|repeat constructor; unfold score_ge; cbn; lia]).
    constructor.
  - reflexivity.
  - cbn. intuition discriminate.
  - repeat constructor; cbn; lia.
Defined.

(** ** A name that cannot be guessed *)

Lemma lstrip_head (s : string) (c : ascii) (r : string) :
  PyStr.lstrip s = String c r -> PyStr.is_space c = false.
Proof.
  induction s as [|a s IH]; cbn; [discriminate|].
  destruct (PyStr.is_space a) eqn:Ha; [exact IH|].
  now intros [= <- _].
Qed.

Lemma rev_append_app (s a b : string) :
  PyStr.rev_append s (String.append a b)
  = String.append (PyStr.rev_append s a) b.
Proof.
  revert a. induction s as [|c s IH]; intros a; cbn; [reflexivity|].
  now rewrite <- IH.
Qed.

Lemma lstrip_snoc (u : string) (c : ascii) :
  PyStr.is_space c = false ->
  exists v, PyStr.lstrip (String.append u (String c ""))
            = String.append v (String c "").
Proof.
  intros Hc. induction u as [|a u IH]; cbn.
  - rewrite Hc. now exists "".
  - destruct (PyStr.is_space a); [exact IH|].
    now exists (String a u).
Qed.

Lemma rev_append_snoc (v : string) (c : ascii) (acc : string) :
  PyStr.rev_append (String.append v (String c "")) acc
  = String c (PyStr.rev_append v acc).
Proof.
  revert acc. induction v as [|a v IH]; intros acc; cbn; [reflexivity|].
  now rewrite IH.
Qed.

(** What [strip] returns does not start with a blank. *)
Lemma strip_head (g : string) (c : ascii) (r : string) :
  PyStr.strip g = String c r -> PyStr.is_space c = false.
Proof.
  unfold PyStr.strip, PyStr.rstrip, PyStr.rev.
  destruct (PyStr.lstrip g) as [|h t] eqn:Hl; [discriminate|].
  pose proof (lstrip_head g h t Hl) as Hh.
  cbn [PyStr.rev_append].
  change (String h "") with (String.append "" (String h "")).
  rewrite rev_append_app.
  destruct (lstrip_snoc (PyStr.rev_append t "") h Hh) as [v Hv].
  rewrite Hv, rev_append_snoc. now intros [= <- _].
Qed.

Lemma lower_char_space (c : ascii) :
  PyStr.is_space (PyStr.lower_char c) = PyStr.is_space c.
Proof.
  destruct c as [[] [] [] [] [] [] [] []]; reflexivity.
Qed.

(** X18: only the guess is stripped, not the name it is compared with;
    so when the name of the secret starts with a blank character no guess
    equals it, and every guess is handled as a wrong guess. *)
Theorem padded_name_is_never_guessed (e : env) (s : session) (d : Secret.t)
    (c : ascii) (r : string) :
  secret s = Dict d ->
  Secret.name d = String c r ->
  PyStr.is_space c = true ->
  submit_guess e s = wrong_guess e s.
Proof.
  intros Hd Hn Hc. rewrite (submit_guess_run e s d Hd).
  destruct (String.eqb_spec (PyStr.lower (PyStr.strip (guess e)))
              (PyStr.lower (Secret.name d))) as [E|E]; [|reflexivity].
  exfalso. rewrite Hn in E. cbn in E.
  destruct (PyStr.strip (guess e)) as [|c' r'] eqn:Hs; [discriminate|].
  cbn in E. injection E as Ec _.
  pose proof (strip_head _ _ _ Hs) as Hc'.
  rewrite <- lower_char_space, Ec, lower_char_space in Hc'. congruence.
Qed.

Lemma padded_name_is_never_guessed_witness :
  submit_guess (Sample.with_guess " Chad" None)
    (set_secret (Dict Cases.padded_secret) (Sample.playing 100 0 []))
  = wrong_guess (Sample.with_guess " Chad" None)
      (set_secret (Dict Cases.padded_secret) (Sample.playing 100 0 [])).
Proof.
  apply (padded_name_is_never_guessed (Sample.with_guess " Chad" None)
           (set_secret (Dict Cases.padded_secret) (Sample.playing 100 0 []))
           Cases.padded_secret " "%char "Chad"); reflexivity.
Defined.

(** ** Replay requests *)

Ltac replay_leaf :=
  idtac;
  match goal with
  | H : no_replay _ |- no_replay _ => exact H
  | H : no_replay ?s |- rerun_iff_replay _ ?s =>
      unfold no_replay in H; unfold rerun_iff_replay;
      split; intros E; [discriminate E | congruence]
  end.

Lemma show_answers_no_replay (l : list (string * string)) :
  ends_well no_replay rerun_iff_replay (show_answers l).
Proof.
  apply ends_well_reads;
    [apply reads_only_show_answers | apply only_raises_show_answers|].
  intros s x Hs. replay_leaf.
Qed.

Lemma play_again_replay : ends_well no_replay rerun_iff_replay play_again.
Proof.
  intros s _. rewrite play_again_run. cbn. unfold rerun_iff_replay; cbn.
  now split.
Qed.

Lemma rest_no_replay (e : env) :
  ends_well no_replay rerun_iff_replay
    (out_of_points_guard ;;
     s0 <- get ;;
     modify (set_selected_question (question_selector e)) ;;
     when (btn_submit_question e)
       (submit_question e (available (asked_questions s0))) ;;
     leaderboard_block e ;;
     when (btn_play_again e) play_again).
Proof.
  apply ends_well_bind.
  { unfold out_of_points_guard, secret_item, read_secret, lift, raise.
    ends replay_leaf. }
  intros _. apply ends_well_get. intros s0.
  apply ends_well_bind; [ends replay_leaf|]. intros _.
  apply ends_well_bind.
  { apply ends_well_when. unfold submit_question.
    apply ends_well_bind.
    { unfold ask_question, read_secret, lift, raise. ends replay_leaf. }
    intros _. apply ends_well_get. intros s1.
    apply ends_well_bind; [apply show_answers_no_replay|]. intros _.
    unfold submit_guess, correct_guess, wrong_guess, request_hint,
      secret_item, read_secret, lift, raise.
    ends replay_leaf. }
  intros _.
  apply ends_well_bind;
    [unfold leaderboard_block, submit_score; ends replay_leaf|]. intros _.
  apply ends_well_when, play_again_replay.
Qed.

Lemma start_then_rest_no_replay (e : env) :
  ends_well no_replay rerun_iff_replay
    ((setup_new_country e ;;
      modify (set_answers []) ;;
      modify (set_asked_questions []) ;;
      modify (set_previous_hints []) ;;
      modify (set_game_started true) ;;
      emit NewCountryLoaded) ;;
     out_of_points_guard ;;
     s0 <- get ;;
     modify (set_selected_question (question_selector e)) ;;
     when (btn_submit_question e)
       (submit_question e (available (asked_questions s0))) ;;
     leaderboard_block e ;;
     when (btn_play_again e) play_again).
Proof.
  apply ends_well_bind; [|intros _; apply rest_no_replay].
  unfold setup_new_country, lift, raise. ends replay_leaf.
Qed.

Lemma bind_bind_modify {A B : Type} (f : session -> session)
    (k1 : M A) (k2 : A -> M B) (s : session) :
  bind (bind (modify f) (fun _ => k1)) k2 s = bind k1 k2 (f s).
Proof.
  unfold bind, modify. destruct (k1 (f s)) as [[[a|g] s1] l1]; cbn;
    [|reflexivity].
  now destruct (k2 a s1) as [[r s2] l2].
Qed.

(** X19: a replay request is in the store at the end of an execution
    exactly when the execution ended by [st.rerun()], that is, by Play
    Again: a request found at the start is consumed by the round start,
    also when the set-up of the country fails, and no other block sets
    it. *)
Theorem replay_pending_iff_rerun (e : env) (s : session) :
  replay_requested (state_of (script e s)) = true
  <-> outcome_of (script e s) = Halt RerunScript.
Proof.
  assert (Hend : match outcome_of (script e s) with
                 | Done _ => no_replay (state_of (script e s))
                 | Halt g => rerun_iff_replay g (state_of (script e s))
                 end).
  { unfold script. rewrite bind_get_eq.
    destruct (btn_start e || replay_requested s) eqn:Hc; cbn [when].
    - unfold start_game. rewrite bind_bind_modify.
      now apply (start_then_rest_no_replay e).
    - apply orb_false_elim in Hc. destruct Hc as [_ Hr].
      apply (ends_well_bind no_replay rerun_iff_replay (ret tt));
        [apply ends_well_ret | intros _; apply rest_no_replay | exact Hr]. }
  destruct (outcome_of (script e s)) as [a|g].
  - unfold no_replay in Hend. rewrite Hend. split; discriminate.
  - unfold rerun_iff_replay in Hend. split.
    + intros H. f_equal. now apply Hend.
    + intros [= ->]. now apply Hend.
Qed.

(** ** Answers and the catalog *)

(** X20: when the reply of the content generator has none of the keys of
    the set-up, the answers to the questions are those of the catalog
    record the secret was built from, with the defaults of the set-up for
    the keys the record lacks: no coastline unless the record says it is
    not landlocked, no neighbour, not a UN member, capital and FIFA code
    Unknown, population 0 (small), region Unknown.  (A reply that has such
    a key replaces the record's value, and the answers follow the reply.) *)
Theorem answers_follow_record (e : env) (entry : Entry.t) (d : Secret.t) :
  (forall n o, ai_profile e n = Some (Reply.Object o) -> Reply.adds_only o = true) ->
  secret_of_entry e entry = inr d ->
  answer_to "Is it in Europe?" d
  = Some (if (PyStr.lower (Entry.get (Entry.region entry) "Unknown") =? "europe")%string
          then "Yes, it's in Europe"
          else String.append "No, it's in "
                 (Entry.get (Entry.region entry) "Unknown"))
  /\ answer_to "Is its population small, medium, or large?" d
     = Some (classify_population (Entry.get (Entry.population entry) 0))
  /\ answer_to "Does it have a coastline?" d
     = Some (if Entry.get (Entry.landlocked entry) true then "No" else "Yes")
  /\ answer_to "Does it have more than 3 neighboring countries?" d
     = Some (if Z.of_nat (List.length (Entry.get (Entry.borders entry) [])) >? 3
             then "Yes" else "No")
  /\ answer_to "Is it a UN member?" d
     = Some (if Entry.get (Entry.unMember entry) false then "Yes" else "No")
  /\ answer_to "What is the country's capital city?" d
     = Some (match Entry.capital entry with
             | Some (c :: _) => c
             | _ => "Unknown"
             end)
  /\ answer_to "What is the country's FIFA code?" d
     = Some (Entry.get (Entry.fifa entry) "Unknown")
  /\ answer_to "What is the flag?" d = Some "Here is the flag:".
Proof.
  intros Hplain. unfold secret_of_entry, generate_country_info_with_ai.
  destruct (item (Entry.name_common entry)) as [x|n]; [discriminate|].
  assert (Hkeys : forall o, ai_profile e n = Some (Reply.Object o) ->
            Reply.region o = None /\ Reply.population o = None
            /\ Reply.capital o = None /\ Reply.coastline o = None
            /\ Reply.neighbors o = None /\ Reply.un o = None
            /\ Reply.fifa o = None).
  { intros o Ho. specialize (Hplain n o Ho). unfold Reply.adds_only in Hplain.
    destruct (Reply.name o), (Reply.region o), (Reply.population o),
      (Reply.capital o), (Reply.coastline o), (Reply.neighbors o),
      (Reply.un o), (Reply.language o), (Reply.fifa o), (Reply.cca2 o);
      try discriminate.
    repeat split. }
  destruct (Entry.capital entry) as [[|c r]|]; cbn [Entry.get first_item];
    [discriminate| |];
    (destruct (ai_profile e n) as [[|o]|]; [discriminate | |]);
    try (destruct (Hkeys o eq_refl) as (H1 & H2 & H3 & H4 & H5 & H6 & H7);
         rewrite H1, H2, H3, H4, H5, H6, H7);
    intros [= <-]; unfold answer_to; cbn;
    destruct (Entry.get (Entry.landlocked entry) true);
    destruct (PyStr.lower (Entry.get (Entry.region entry) "Unknown") =? "europe")%string;
    repeat split.
Qed.

Lemma answers_follow_record_witness :
  answer_to "Does it have more than 3 neighboring countries?"
    Cases.france_with_profile = Some "Yes"
  /\ answer_to "What is the country's capital city?" Cases.france_with_profile
     = Some "Paris".
Proof.
  destruct (answers_follow_record
              (Cases.start_with_reply (Reply.Object Cases.french_profile))
              Sample.france Cases.france_with_profile)
    as (_ & _ & _ & H4 & _ & H6 & _).
  - intros n o [= <-]. reflexivity.
  - reflexivity.
  - split; [exact H4 | exact H6].
Defined.

(** ** What falls off the board *)

Lemma sorted_app_le (l1 l2 : list (string * Z)) :
  StronglySorted score_ge (l1 ++ l2) ->
  forall x y, In x l1 -> In y l2 -> snd y <= snd x.
Proof.
  induction l1 as [|a l1 IH]; cbn; intros Hs x y Hx Hy; [destruct Hx|].
  inversion Hs as [|? ? Hrest Hall]; subst.
  destruct Hx as [<-|Hx]; [|now apply (IH Hrest)].
  rewrite Forall_forall in Hall. apply Hall. apply in_or_app. now right.
Qed.

(** X21: a submission drops only the lowest scores: an entry of the
    updated list that is not on the board afterwards has a score no higher
    than any entry that is on it. *)
Theorem dropped_entries_score_lowest (s : session) (player : string)
    (x y : string * Z) :
  In x (updated_board player (points s) (leaderboard s)) ->
  ~ In x (leaderboard (state_of (submit_score player s))) ->
  In y (leaderboard (state_of (submit_score player s))) ->
  snd x <= snd y.
Proof.
  rewrite submit_score_run. unfold state_of. cbn [fst snd leaderboard set_leaderboard].
  set (l := sorted_desc (updated_board player (points s) (leaderboard s))).
  intros Hx Hnx Hy.
  assert (Hxl : In x l) by (eapply Permutation_in; [apply sorted_desc_perm | exact Hx]).
  rewrite <- (firstn_skipn 5 l) in Hxl. apply in_app_or in Hxl.
  destruct Hxl as [Hxl|Hxl]; [contradiction|].
  apply (sorted_app_le (firstn 5 l) (skipn 5 l)); try assumption.
  rewrite firstn_skipn. apply sorted_desc_sorted.
Qed.

Lemma dropped_entries_score_lowest_witness :
  snd ("Flo", 40) <= snd ("Dan", 50).
Proof.
  apply (dropped_entries_score_lowest
           (Sample.finished 70 0
              [("Ada", 90); ("Bob", 70); ("Cy", 70); ("Dan", 50); ("Flo", 40)])
           "Eve" ("Flo", 40) ("Dan", 50)).
  - vm_compute. tauto.
  - vm_compute. intuition discriminate.
  - vm_compute. tauto.
Defined.
